(** * z3-verification.py: term builder and entailment checker

    A shallow embedding of the script that accompanies the paper
    "Semi-abelian by Design: Johnstone Algebras Unifying Implication and
    Division".  The script builds first-order terms over an uninterpreted
    sort [U] with the Z3 Python API and asks Z3, once per conclusion,
    whether the assumptions together with the negated conclusion are
    unsatisfiable.

    Z3 itself, the wall clock and the console are the outside world of the
    script.  They are modelled by a record of behaviours ([Host]) and by an
    explicit world state ([World]) that the checker threads through a small
    state-and-exception monad. *)

From Stdlib Require Import String Ascii List ZArith Lia Bool.
From Stdlib Require Import Decimal DecimalString.
Import ListNotations.
Local Open Scope list_scope.
Local Open Scope string_scope.

(* ===================================================================== *)
(** ** Python exceptions *)
(* ===================================================================== *)

Module Py.

(** The exception classes that matter to the script.  [ValueError],
    [UnicodeEncodeError] (a [ValueError]), [AttributeError] and
    [Z3Exception] derive from [Exception]; [KeyboardInterrupt] derives
    from [BaseException] only. *)
Inductive Exn : Type :=
| ValueError (msg : string)
| UnicodeEncodeError (msg : string)
| AttributeError (msg : string)
| Z3Exception (msg : string)
| KeyboardInterrupt.

(** [except Exception] *)
Definition is_Exception (e : Exn) : bool :=
  match e with
  | KeyboardInterrupt => false
  | _ => true
  end.

(** [except AttributeError] *)
Definition is_AttributeError (e : Exn) : bool :=
  match e with
  | AttributeError _ => true
  | _ => false
  end.

(** [str(n)] for a non-negative [int]. *)
Definition str_nat (n : nat) : string :=
  NilZero.string_of_uint (Nat.to_uint n).

(** ["c" * n] *)
Fixpoint repeat_char (c : ascii) (n : nat) : string :=
  match n with
  | O => EmptyString
  | S k => String c (repeat_char c k)
  end.

Definition newline : string := String "010"%char EmptyString.

End Py.

(* ===================================================================== *)
(** ** Z3 expressions over the sort [U] *)
(* ===================================================================== *)

(** [Function(name, U, U, U)]: a binary function symbol on [U]. *)
Record FuncDeclRef : Type := Function { decl_name : string }.

(** Terms of sort [U]: constants ([Const(name, U)]) and applications of a
    declared binary symbol.  The Python API builds applications without
    rewriting them, so a term is exactly the tree that was written. *)
Inductive ExprRef : Type :=
| Const (name : string)
| App (decl : FuncDeclRef) (a b : ExprRef).

(** Formulas ([BoolRef]). *)
Inductive BoolRef : Type :=
| Eq (lhs rhs : ExprRef)
| Not (a : BoolRef)
| And (a b : BoolRef)
| Implies (a b : BoolRef)
| ForAll (vars : list ExprRef) (body : BoolRef).

(** Number of function applications in a term. *)
Fixpoint applications (t : ExprRef) : nat :=
  match t with
  | Const _ => 0
  | App _ a b => S (applications a + applications b)
  end.

Definition total_applications (ts : list ExprRef) : nat :=
  fold_right (fun t acc => applications t + acc) 0 ts.

(* --------------------------------------------------------------------- *)
(** *** Declarations (lines 93-103) *)

Definition f : ExprRef -> ExprRef -> ExprRef := App (Function "f").
Definition m : ExprRef -> ExprRef -> ExprRef := App (Function "m").
Definition p : ExprRef -> ExprRef -> ExprRef := App (Function "p").
Definition e : ExprRef := Const "e".

Definition x : ExprRef := Const "x".
Definition y : ExprRef := Const "y".
Definition z : ExprRef := Const "z".
Definition w : ExprRef := Const "w".

(* --------------------------------------------------------------------- *)
(** *** Derived terms (lines 106-115) *)

Definition t (a b : ExprRef) : ExprRef := f (f a b) b.

Definition v (a b : ExprRef) : ExprRef := t (t a b) a.

(* --------------------------------------------------------------------- *)
(** *** Left-associative application (lines 122-141)

    [*args] is the tuple of operands.  An empty tuple raises [ValueError];
    otherwise the loop starts from [args[0]] and applies the symbol to the
    running result and each further operand. *)

Definition P (args : list ExprRef) : Py.Exn + ExprRef :=
  match args with
  | [] => inl (Py.ValueError "Function P requires at least one argument.")
  | arg0 :: rest => inr (fold_left (fun res arg => p res arg) rest arg0)
  end.

Definition M (args : list ExprRef) : Py.Exn + ExprRef :=
  match args with
  | [] => inl (Py.ValueError "Function M requires at least one argument.")
  | arg0 :: rest => inr (fold_left (fun res arg => m res arg) rest arg0)
  end.

Definition F (args : list ExprRef) : Py.Exn + ExprRef :=
  match args with
  | [] => inl (Py.ValueError "Function F requires at least one argument.")
  | arg0 :: rest => inr (fold_left (fun res arg => f res arg) rest arg0)
  end.

(** The shape [op(op(...op(o1,o2)...,o_{N-1}),o_N)], described from the
    outside in: one operand stands for itself, and a further operand wraps
    the term built so far as the left argument of one more application. *)
Inductive LeftNested (op : ExprRef -> ExprRef -> ExprRef)
  : list ExprRef -> ExprRef -> Prop :=
| LeftNested_one : forall o, LeftNested op [o] o
| LeftNested_snoc : forall os o tm,
    LeftNested op os tm -> LeftNested op (os ++ [o])%list (op tm o).

(* ===================================================================== *)
(** ** The outside world: Z3 sessions, the clock, the console *)
(* ===================================================================== *)

(** [CheckSatResult] wraps Z3's three-valued answer [r]; two results are
    equal when their [r] agree. *)
Record CheckSatResult : Type := { r : Z }.

Definition unsat : CheckSatResult := {| r := -1 |}.
Definition sat : CheckSatResult := {| r := 1 |}.
Definition unknown : CheckSatResult := {| r := 0 |}.

Definition CheckSatResult_eq (a b : CheckSatResult) : bool := (r a =? r b)%Z.

(** A solver session: the parameter set with [s.set("timeout", ...)] and
    the constraints added so far, oldest first. *)
Record Solver : Type := {
  timeout : option Z;
  assertions : list BoolRef
}.

Definition Solver_set_timeout (s : Solver) (ms : Z) : Solver :=
  {| timeout := Some ms; assertions := assertions s |}.

(** [s.add(...)] with a list (or a single formula) appends the formulas. *)
Definition Solver_add (s : Solver) (cs : list BoolRef) : Solver :=
  {| timeout := timeout s; assertions := (assertions s ++ cs)%list |}.

(** What the script cannot see into.  [float] is the type of the values
    returned by [time.time()].

    - [solver_check s] is Z3's answer for a session with the content [s];
      Z3 is a black box that decides a session from what was loaded into it;
    - [expr_str] is the text of [concl] that [print(f"  {concl}")] puts
      on the console and [expr_sexpr] is the text that
      [print(f"  {concl.sexpr()}")] puts there; either statement may
      raise instead, while the text is formatted or while it is encoded
      for the console, and then prints nothing;
    - [wall_clock n] is the reading of the [n]-th call of [time.time()];
    - [float_sub] is float subtraction and [format_3f] is the [:.3f]
      format. *)
Record Host (float : Type) : Type := {
  solver_check : Solver -> CheckSatResult;
  expr_str : BoolRef -> Py.Exn + string;
  expr_sexpr : BoolRef -> Py.Exn + string;
  wall_clock : nat -> float;
  float_sub : float -> float -> float;
  format_3f : float -> string
}.

Arguments solver_check {float} _ _.
Arguments expr_str {float} _ _.
Arguments expr_sexpr {float} _ _.
Arguments wall_clock {float} _ _.
Arguments float_sub {float} _ _ _.
Arguments format_3f {float} _ _.

(** The observable state of a run.

    - [stdout]: the texts printed so far, one entry per [print] call;
    - [solvers_created]: how many times [Solver()] was called;
    - [solver_queries]: the sessions on which [s.check()] was called, in
      order, as they were at the call;
    - [clock_reads]: how many times [time.time()] was called. *)
Record World : Type := {
  stdout : list string;
  solvers_created : nat;
  solver_queries : list Solver;
  clock_reads : nat
}.

Definition World_init : World :=
  {| stdout := []; solvers_created := 0; solver_queries := []; clock_reads := 0 |}.

(* --------------------------------------------------------------------- *)
(** *** A state-and-exception monad

    A computation takes the world and returns a value or a raised
    exception, together with the world as it was left: what was printed
    before an exception stays printed. *)

Definition Run (A : Type) : Type := World -> (Py.Exn + A) * World.

Definition ret {A} (a : A) : Run A := fun wd => (inr a, wd).

Definition bind {A B} (c : Run A) (k : A -> Run B) : Run B :=
  fun wd =>
    match c wd with
    | (inr a, wd') => k a wd'
    | (inl ex, wd') => (inl ex, wd')
    end.

Definition raise {A} (ex : Py.Exn) : Run A := fun wd => (inl ex, wd).

(** [try: body  except <class>: handler] *)
Definition try_except {A} (body : Run A) (catches : Py.Exn -> bool)
    (handler : Run A) : Run A :=
  fun wd =>
    match body wd with
    | (inr a, wd') => (inr a, wd')
    | (inl ex, wd') => if catches ex then handler wd' else (inl ex, wd')
    end.

(** A value computed by the host that may raise. *)
Definition eval {A} (v : Py.Exn + A) : Run A := fun wd => (v, wd).

Declare Scope run_scope.
Delimit Scope run_scope with run.
Notation "x <- c ;; k" := (bind c (fun x => k))
  (at level 61, c at next level, right associativity) : run_scope.
Notation "c ;; k" := (bind c (fun _ => k))
  (at level 61, right associativity) : run_scope.
Local Open Scope run_scope.

(* --------------------------------------------------------------------- *)
(** *** Primitive effects *)

Definition print (s : string) : Run unit :=
  fun wd =>
    (inr tt,
     {| stdout := (stdout wd ++ [s])%list;
        solvers_created := solvers_created wd;
        solver_queries := solver_queries wd;
        clock_reads := clock_reads wd |}).

(** [Solver()]: a new, empty session. *)
Definition Solver_new : Run Solver :=
  fun wd =>
    (inr {| timeout := None; assertions := [] |},
     {| stdout := stdout wd;
        solvers_created := S (solvers_created wd);
        solver_queries := solver_queries wd;
        clock_reads := clock_reads wd |}).

(** [s.check()] *)
Definition Solver_check {float} (host : Host float) (s : Solver)
    : Run CheckSatResult :=
  fun wd =>
    (inr (solver_check host s),
     {| stdout := stdout wd;
        solvers_created := solvers_created wd;
        solver_queries := (solver_queries wd ++ [s])%list;
        clock_reads := clock_reads wd |}).

(** [time.time()] *)
Definition time_time {float} (host : Host float) : Run float :=
  fun wd =>
    (inr (wall_clock host (clock_reads wd)),
     {| stdout := stdout wd;
        solvers_created := solvers_created wd;
        solver_queries := solver_queries wd;
        clock_reads := S (clock_reads wd) |}).

(* --------------------------------------------------------------------- *)
(** *** [timeout_ms / 1000.0] as printed by an f-string

    The quotient is the double nearest to [timeout_ms / 1000], and [repr]
    prints the shortest decimal that reads back as that double.  For
    [|timeout_ms| < 10^15] this is the exact decimal expansion of
    [timeout_ms / 1000] with trailing zeros removed and at least one digit
    after the point; that is what is computed here.

    Outside that range the function below is not the code: from [2^53 + 1]
    the double is rounded, from [10^19] the text is in exponent notation,
    and from [2^1024] the division raises [OverflowError] before the
    header is complete.  The statements below that say that [check]
    returns, or that describe its whole run, for an arbitrary [timeout_ms]
    carry the bound [|timeout_ms| < 10^15]; statements about a run that is
    given to return, or about the loop after the header, do not need it. *)

Definition digit_char (d : Z) : ascii :=
  ascii_of_nat (48 + Z.to_nat d).

(** The digits after the point for [frac] thousandths, [0 <= frac < 1000]. *)
Definition thousandths_digits (frac : Z) : string :=
  let d1 := (frac / 100)%Z in
  let d2 := ((frac / 10) mod 10)%Z in
  let d3 := (frac mod 10)%Z in
  if (d3 =? 0)%Z then
    if (d2 =? 0)%Z then String (digit_char d1) EmptyString
    else String (digit_char d1) (String (digit_char d2) EmptyString)
  else String (digit_char d1) (String (digit_char d2)
                                 (String (digit_char d3) EmptyString)).

Definition repr_div_1000 (timeout_ms : Z) : string :=
  let a := Z.abs timeout_ms in
  (if (timeout_ms <? 0)%Z then "-" else EmptyString)
    ++ Py.str_nat (Z.to_nat (a / 1000))
    ++ "." ++ thousandths_digits (a mod 1000).

(* ===================================================================== *)
(** ** [check] (lines 19-87) *)
(* ===================================================================== *)

Section Check.

Context {float : Type}.
Variable host : Host float.

(** Lines 47-54: print the conclusion, falling back to its S-expression,
    then to a fixed text. *)
Definition print_conclusion (concl : BoolRef) : Run unit :=
  try_except
    (text <- eval (expr_str host concl) ;;
     print ("  " ++ text))
    Py.is_Exception
    (try_except
       (text <- eval (expr_sexpr host concl) ;;
        print ("  " ++ text))
       Py.is_AttributeError
       (print "  [Could not format conclusion]")).

(** Lines 63-81: report the answer and append its classification. *)
Definition report_result (result : CheckSatResult) (status_str : string)
    (results : list string) : Run (list string) :=
  if CheckSatResult_eq result unsat then
    print ("  Result: HOLDS (Assumptions entail Conclusion) " ++ status_str) ;;
    ret (results ++ ["holds"])%list
  else if CheckSatResult_eq result sat then
    print ("  Result: DOESN'T HOLD (Found countermodel/scenario) "
             ++ status_str) ;;
    ret (results ++ ["doesn't hold"])%list
  else
    print ("  Result: UNKNOWN (Timeout or resource limit?) " ++ status_str) ;;
    ret (results ++ ["unknown"])%list.

(** Lines 40-82: the body of the loop for the conclusion at index [i] of
    [n]; [results] is the list built so far. *)
Definition check_body (assumptions : list BoolRef) (timeout_ms : Z)
    (n i : nat) (concl : BoolRef) (results : list string)
    : Run (list string) :=
  s <- Solver_new ;;
  let s := Solver_set_timeout s timeout_ms in
  let s := Solver_add s assumptions in
  let s := Solver_add s [Not concl] in
  print (Py.newline ++ "[Check " ++ Py.str_nat (i + 1) ++ "/" ++ Py.str_nat n
           ++ "] Checking Conclusion:") ;;
  print_conclusion concl ;;
  start_time <- time_time host ;;
  result <- Solver_check host s ;;
  end_time <- time_time host ;;
  let duration := float_sub host end_time start_time in
  let status_str := "(" ++ format_3f host duration ++ "s)" in
  results <- report_result result status_str results ;;
  print (Py.repeat_char "-" 25) ;;
  ret results.

(** Line 39: [for i, concl in enumerate(conclusions)]. *)
Fixpoint check_loop (assumptions : list BoolRef) (timeout_ms : Z)
    (n i : nat) (conclusions : list BoolRef) (results : list string)
    : Run (list string) :=
  match conclusions with
  | [] => ret results
  | concl :: rest =>
      results <- check_body assumptions timeout_ms n i concl results ;;
      check_loop assumptions timeout_ms n (S i) rest results
  end.

Definition check (assumptions conclusions : list BoolRef) (timeout_ms : Z)
    : Run (list string) :=
  print (Py.repeat_char "-" 70) ;;
  print "Starting Z3 Checks..." ;;
  print ("Number of Assumptions: " ++ Py.str_nat (length assumptions)) ;;
  print ("Timeout per check: " ++ repr_div_1000 timeout_ms ++ " seconds") ;;
  print (Py.repeat_char "-" 70) ;;
  results <- check_loop assumptions timeout_ms (length conclusions) 0
               conclusions [] ;;
  print (Py.repeat_char "-" 70) ;;
  print "Checks Complete." ;;
  print (Py.repeat_char "-" 70) ;;
  ret results.

(** The signature [check(assumptions, conclusions, timeout_ms=1000)]: a
    call binds [timeout_ms] to the argument when one is given and to the
    default otherwise. *)
Definition timeout_ms_default : Z := 1000.

Definition call_check (assumptions conclusions : list BoolRef)
    (timeout_arg : option Z) : Run (list string) :=
  check assumptions conclusions
    (match timeout_arg with
     | Some ms => ms
     | None => timeout_ms_default
     end).

End Check.

(* ===================================================================== *)
(** ** Part of the axiom catalog (lines 149-207) and the selection of the
       main block (lines 260-266)

    The catalog is built when the module is loaded; an axiom whose
    construction raises stops the load.  Each entry is therefore a value
    or an exception. *)
(* ===================================================================== *)

Definition bind_exn {A B} (c : Py.Exn + A) (k : A -> Py.Exn + B)
    : Py.Exn + B :=
  match c with
  | inl ex => inl ex
  | inr a => k a
  end.

Declare Scope exn_scope.
Delimit Scope exn_scope with exn.
Notation "x <- c ;; k" := (bind_exn c (fun x => k))
  (at level 61, c at next level, right associativity) : exn_scope.

Module Catalog.

Definition Axiom_1_Assoc : Py.Exn + BoolRef :=
  (lhs <- M [x; y; z] ;;
   inr (ForAll [x; y; z] (Eq lhs (m x (m y z)))))%exn.

Definition Axiom_15_MP : Py.Exn + BoolRef :=
  inr (ForAll [x; y] (Eq (f x (t x y)) e)).

Definition Axiom_17_B : Py.Exn + BoolRef :=
  (lhs <- F [f x y; f (f z x) (f z y)] ;;
   inr (ForAll [x; y; z] (Eq lhs e)))%exn.

Definition Axiom_22_CornishJ : Py.Exn + BoolRef :=
  inr (ForAll [x; y] (Eq (v x y) (v y x))).

Definition Axiom_RC_3_tAntisymmetryE : Py.Exn + BoolRef :=
  (lhs <- P [x; y; x] ;;
   rhs <- P [x; y; x; y] ;;
   inr (ForAll [x; y] (Eq lhs rhs)))%exn.

Definition Axiom_RC_5_RightAbsorption : Py.Exn + BoolRef :=
  (lhs <- P [x; y; y; p x y] ;;
   inr (ForAll [x; y] (Eq lhs (p x y))))%exn.

Definition Axiom_RC_7_Flattening : Py.Exn + BoolRef :=
  inr (ForAll [x; y; z] (Eq (p (p x y) (p x z)) (p (p x y) z))).

Definition Axiom_RC_9_WeakClosureStability : Py.Exn + BoolRef :=
  (a1 <- P [x; y; x] ;;
   a2 <- P [a1; p x y] ;;
   a3 <- P [x; y; x; x] ;;
   lhs <- P [a2; x; a3] ;;
   rhs <- P [x; y; x; x] ;;
   inr (ForAll [x; y] (Eq lhs rhs)))%exn.

Definition Quasi_AntiSym_p : Py.Exn + BoolRef :=
  inr (ForAll [x; y]
         (Implies (And (Eq (p x y) y) (Eq (p y x) x)) (Eq x y))).

Definition Theory_WRC_p : Py.Exn + list BoolRef :=
  (a5 <- Axiom_RC_5_RightAbsorption ;;
   a7 <- Axiom_RC_7_Flattening ;;
   a9 <- Axiom_RC_9_WeakClosureStability ;;
   inr [a5; a7; a9])%exn.

(** [assumptions = Theory_WRC_p + [Quasi_AntiSym_p]] *)
Definition main_assumptions : Py.Exn + list BoolRef :=
  (th <- Theory_WRC_p ;;
   q <- Quasi_AntiSym_p ;;
   inr (th ++ [q])%list)%exn.

(** [conclusions = [Axiom_RC_3_tAntisymmetryE]] *)
Definition main_conclusions : Py.Exn + list BoolRef :=
  (c <- Axiom_RC_3_tAntisymmetryE ;;
   inr [c])%exn.

End Catalog.

(** The value of a successful construction, [dflt] otherwise. *)
Definition value_or {A} (dflt : A) (c : Py.Exn + A) : A :=
  match c with
  | inr a => a
  | inl _ => dflt
  end.

(* ===================================================================== *)
(** ** Vocabulary of the specification *)
(* ===================================================================== *)

(** The session the specification asks for: the time budget, the
    assumptions, and the negation of the one conclusion. *)
Definition session_for (assumptions : list BoolRef) (timeout_ms : Z)
    (concl : BoolRef) : Solver :=
  {| timeout := Some timeout_ms;
     assertions := (assumptions ++ [Not concl])%list |}.

(** The mapping of the oracle's answer to a report classification. *)
Inductive Classifies : CheckSatResult -> string -> Prop :=
| Classifies_unsat : Classifies unsat "holds"
| Classifies_sat : Classifies sat "doesn't hold"
| Classifies_other : forall res,
    res <> unsat -> res <> sat -> Classifies res "unknown".

Definition status_of (res : CheckSatResult) : string :=
  match r res with
  | (-1)%Z => "holds"
  | 1%Z => "doesn't hold"
  | _ => "unknown"
  end.

Definition verdict_of (res : CheckSatResult) : string :=
  match r res with
  | (-1)%Z => "HOLDS (Assumptions entail Conclusion)"
  | 1%Z => "DOESN'T HOLD (Found countermodel/scenario)"
  | _ => "UNKNOWN (Timeout or resource limit?)"
  end.

Definition is_status (s : string) : Prop :=
  s = "holds" \/ s = "doesn't hold" \/ s = "unknown".

(** The world with [lines] printed after what is already on the console. *)
Definition emit (lines : list string) (wd : World) : World :=
  {| stdout := (stdout wd ++ lines)%list;
     solvers_created := solvers_created wd;
     solver_queries := solver_queries wd;
     clock_reads := clock_reads wd |}.

(** The world after some checks: their lines printed, one session created
    and queried per check, the clock read twice per check. *)
Definition after_checks (wd : World) (lines : list string)
    (sessions : list Solver) : World :=
  {| stdout := (stdout wd ++ lines)%list;
     solvers_created := solvers_created wd + length sessions;
     solver_queries := (solver_queries wd ++ sessions)%list;
     clock_reads := clock_reads wd + 2 * length sessions |}.

Definition banner_start (assumptions : list BoolRef) (timeout_ms : Z)
    : list string :=
  [ Py.repeat_char "-" 70;
    "Starting Z3 Checks...";
    "Number of Assumptions: " ++ Py.str_nat (length assumptions);
    "Timeout per check: " ++ repr_div_1000 timeout_ms ++ " seconds";
    Py.repeat_char "-" 70 ].

Definition banner_end : list string :=
  [ Py.repeat_char "-" 70; "Checks Complete."; Py.repeat_char "-" 70 ].

Section Vocabulary.

Context {float : Type}.
Variable host : Host float.

(** The display of [concl] does not escape from the per-check trace:
    the pretty-printer answers, or it raises an [Exception] and the
    S-expression dump answers or raises [AttributeError]. *)
Definition Recoverable (concl : BoolRef) : Prop :=
  (exists text, expr_str host concl = inr text)
  \/ (exists ex, expr_str host concl = inl ex
                 /\ Py.is_Exception ex = true
                 /\ ((exists text, expr_sexpr host concl = inr text)
                     \/ (exists ex', expr_sexpr host concl = inl ex'
                                     /\ Py.is_AttributeError ex' = true))).

(** The line shown for [concl] when its display is recoverable. *)
Definition shown (concl : BoolRef) : string :=
  match expr_str host concl with
  | inr text => "  " ++ text
  | inl _ =>
      match expr_sexpr host concl with
      | inr text => "  " ++ text
      | inl _ => "  [Could not format conclusion]"
      end
  end.

(** Elapsed time of the check that reads the clock for the [k]-th and
    [k+1]-th time. *)
Definition elapsed_from (k : nat) : float :=
  float_sub host (wall_clock host (S k)) (wall_clock host k).

Definition result_line (res : CheckSatResult) (duration : float) : string :=
  "  Result: " ++ verdict_of res ++ " (" ++ format_3f host duration ++ "s)".

(** The four lines of one check. *)
Definition trace_of (assumptions : list BoolRef) (timeout_ms : Z)
    (n i k : nat) (concl : BoolRef) : list string :=
  [ Py.newline ++ "[Check " ++ Py.str_nat (i + 1) ++ "/" ++ Py.str_nat n
      ++ "] Checking Conclusion:";
    shown concl;
    result_line (solver_check host (session_for assumptions timeout_ms concl))
      (elapsed_from k);
    Py.repeat_char "-" 25 ].

Fixpoint trace_lines (assumptions : list BoolRef) (timeout_ms : Z)
    (n i k : nat) (conclusions : list BoolRef) : list string :=
  match conclusions with
  | [] => []
  | concl :: rest =>
      (trace_of assumptions timeout_ms n i k concl
         ++ trace_lines assumptions timeout_ms n (S i) (S (S k)) rest)%list
  end.

Definition classification (assumptions : list BoolRef) (timeout_ms : Z)
    (concl : BoolRef) : string :=
  status_of (solver_check host (session_for assumptions timeout_ms concl)).

End Vocabulary.

(** A reading of "every element of the returned sequence carries the
    elapsed seconds of its check": one function reads the elapsed time of
    the [i]-th check off the [i]-th element, whatever the run.  Durations
    are taken in whole milliseconds here. *)
Definition results_carry_elapsed : Prop :=
  exists elapsed_of : string -> Z,
    forall (host : Host Z) assumptions conclusions timeout_ms wd results wd',
      check host assumptions conclusions timeout_ms wd = (inr results, wd') ->
      forall i s,
        nth_error results i = Some s ->
        elapsed_of s = elapsed_from host (clock_reads wd + 2 * i).

(** A reading of "a failed display never aborts the check loop": when the
    pretty-printer raises an [Exception] for the conclusions, [check] still
    returns a result sequence. *)
Definition display_failure_never_fatal : Prop :=
  forall (host : Host Z) assumptions conclusions timeout_ms wd,
    (forall concl, In concl conclusions ->
       exists ex, expr_str host concl = inl ex /\ Py.is_Exception ex = true) ->
    exists results wd',
      check host assumptions conclusions timeout_ms wd = (inr results, wd').

(* ===================================================================== *)
(** ** Concrete hosts used in examples *)
(* ===================================================================== *)

Fixpoint ExprRef_eqb (a b : ExprRef) : bool :=
  match a, b with
  | Const n1, Const n2 => String.eqb n1 n2
  | App d1 a1 b1, App d2 a2 b2 =>
      String.eqb (decl_name d1) (decl_name d2)
      && ExprRef_eqb a1 a2 && ExprRef_eqb b1 b2
  | _, _ => false
  end.

Fixpoint render_expr (tm : ExprRef) : string :=
  match tm with
  | Const n => n
  | App d a b => decl_name d ++ "(" ++ render_expr a ++ ", " ++ render_expr b ++ ")"
  end.

Fixpoint render_bool (c : BoolRef) : string :=
  match c with
  | Eq a b => render_expr a ++ " == " ++ render_expr b
  | Not a => "Not(" ++ render_bool a ++ ")"
  | And a b => "And(" ++ render_bool a ++ ", " ++ render_bool b ++ ")"
  | Implies a b => "Implies(" ++ render_bool a ++ ", " ++ render_bool b ++ ")"
  | ForAll vars body =>
      "ForAll([" ++ String.concat ", " (map render_expr vars) ++ "], "
        ++ render_bool body ++ ")"
  end.

(** A small oracle: with the negation of a universally quantified equation
    loaded last, it answers [unsat] when both sides are the same term,
    [sat] when both sides are distinct constants, and [unknown] otherwise. *)
Definition toy_solver_check (s : Solver) : CheckSatResult :=
  match last (assertions s) (Eq e e) with
  | Not (ForAll _ (Eq a b)) =>
      if ExprRef_eqb a b then unsat
      else match a, b with
           | Const _, Const _ => sat
           | _, _ => unknown
           end
  | _ => unknown
  end.

(** [:.3f] for a duration held as a whole number of milliseconds. *)
Definition millis_3f (ms : Z) : string :=
  let a := Z.abs ms in
  let frac := (a mod 1000)%Z in
  (if (ms <? 0)%Z then "-" else EmptyString)
    ++ Py.str_nat (Z.to_nat (a / 1000)) ++ "."
    ++ String (digit_char (frac / 100))
         (String (digit_char ((frac / 10) mod 10))
            (String (digit_char (frac mod 10)) EmptyString)).

(** A host whose clock advances by [step] milliseconds per reading and
    whose displays always answer. *)
Definition toy_host (step : Z) : Host Z :=
  {| solver_check := toy_solver_check;
     expr_str := fun c => inr (render_bool c);
     expr_sexpr := fun c => inr (render_bool c);
     wall_clock := fun n => (step * Z.of_nat n)%Z;
     float_sub := Z.sub;
     format_3f := millis_3f |}.

(** A host whose console cannot encode the text of a formula: both
    displays of every formula raise [UnicodeEncodeError]. *)
Definition broken_display_host : Host Z :=
  {| solver_check := toy_solver_check;
     expr_str := fun _ => inl (Py.UnicodeEncodeError "ascii");
     expr_sexpr := fun _ => inl (Py.UnicodeEncodeError "ascii");
     wall_clock := fun n => Z.of_nat n;
     float_sub := Z.sub;
     format_3f := millis_3f |}.

(** A host on which the pretty-printer raises and there is no [sexpr]. *)
Definition no_sexpr_host : Host Z :=
  {| solver_check := toy_solver_check;
     expr_str := fun _ => inl (Py.Z3Exception "invalid argument");
     expr_sexpr := fun _ => inl (Py.AttributeError "sexpr");
     wall_clock := fun n => Z.of_nat n;
     float_sub := Z.sub;
     format_3f := millis_3f |}.

Definition refl_conclusion : BoolRef := ForAll [x] (Eq x x).
Definition collapse_conclusion : BoolRef := ForAll [x; y] (Eq x y).

(** The assumptions selected by the main block, and three conclusions: a
    reflexive equation, the collapse of the domain, and the conclusion
    selected by the main block. *)
Definition demo_assumptions : list BoolRef :=
  value_or [] Catalog.main_assumptions.

Definition demo_conclusions : list BoolRef :=
  refl_conclusion :: collapse_conclusion
    :: value_or [] Catalog.main_conclusions.

(* ===================================================================== *)
(** ** The rest of the axiom catalog and the theories (lines 149-250) *)
(* ===================================================================== *)

(** The results of a sequence of constructions, or the first exception. *)
Fixpoint sequence_exn {A} (cs : list (Py.Exn + A)) : Py.Exn + list A :=
  match cs with
  | [] => inr []
  | c :: rest =>
      (a <- c ;;
       more <- sequence_exn rest ;;
       inr (a :: more))%exn
  end.

Module Axioms.

Definition Axiom_2_RightId : Py.Exn + BoolRef :=
  inr (ForAll [x] (Eq (m x e) x)).

Definition Axiom_3_LeftId : Py.Exn + BoolRef :=
  inr (ForAll [x] (Eq (m e x) x)).

Definition Axiom_4_Comm : Py.Exn + BoolRef :=
  inr (ForAll [x; y] (Eq (m x y) (m y x))).

Definition Axiom_5_Refl : Py.Exn + BoolRef :=
  inr (ForAll [x] (Eq (f x x) e)).

Definition Axiom_6_UnitRed : Py.Exn + BoolRef :=
  inr (ForAll [x] (Eq (f e x) x)).

Definition Axiom_7_HoopSym : Py.Exn + BoolRef :=
  inr (ForAll [x; y] (Eq (m x (f x y)) (m y (f y x)))).

Definition Axiom_8_Resid : Py.Exn + BoolRef :=
  inr (ForAll [x; y; z] (Eq (f x (f y z)) (f (m y x) z))).

Definition Axiom_9_Idemp : Py.Exn + BoolRef :=
  inr (ForAll [x] (Eq (m x x) x)).

Definition Axiom_10_Fusion : Py.Exn + BoolRef :=
  inr (ForAll [x; y] (Eq (m x y) (m y (f y x)))).

Definition Axiom_11_T : Py.Exn + BoolRef :=
  inr (ForAll [x] (Eq (f x e) e)).

Definition Axiom_12_LowerDiv : Py.Exn + BoolRef :=
  inr (ForAll [x; y] (Eq (m x (f x y)) y)).

Definition Axiom_13_UpperDiv : Py.Exn + BoolRef :=
  inr (ForAll [x; y] (Eq (f x (m x y)) y)).

Definition Axiom_14_K : Py.Exn + BoolRef :=
  inr (ForAll [x; y] (Eq (f x (f y x)) e)).

Definition Axiom_16_C : Py.Exn + BoolRef :=
  inr (ForAll [x; y; z] (Eq (f x (f y z)) (f y (f x z)))).

Definition Axiom_18_S : Py.Exn + BoolRef :=
  (lhs <- F [f z (f x y); f (f z x) (f z y)] ;;
   inr (ForAll [x; y; z] (Eq lhs e)))%exn.

Definition Axiom_19_MonoDiv : Py.Exn + BoolRef :=
  inr (ForAll [x; y] (Eq (m (t x y) (f (t x y) x)) x)).

Definition Axiom_20_H : Py.Exn + BoolRef :=
  inr (ForAll [x; y; z] (Eq (f (f x y) (f x z)) (f (f y x) (f y z)))).

Definition Axiom_21_M : Py.Exn + BoolRef :=
  inr (ForAll [x; y; z] (Eq (f (f (t x y) x) (f (t x y) z)) (f x z))).

Definition Quasi_AntiSym_f : Py.Exn + BoolRef :=
  inr (ForAll [x; y]
         (Implies (And (Eq (f x y) e) (Eq (f y x) e)) (Eq x y))).

Definition Quasi_Transitive_f : Py.Exn + BoolRef :=
  inr (ForAll [x; y; z]
         (Implies (And (Eq (f x y) e) (Eq (f y z) e)) (Eq (f x z) e))).

Definition Axiom_IAS_Equational_f : Py.Exn + BoolRef :=
  inr (ForAll [x; y] (Eq (v x y) (t (v x y) y))).

Definition Axiom_RC_1_tReflexivityE : Py.Exn + BoolRef :=
  inr (ForAll [x] (Eq x (p x x))).

Definition Axiom_RC_2_tTransitivityE : Py.Exn + BoolRef :=
  (a1 <- P [x; y; z] ;;
   lhs <- P [x; a1] ;;
   rhs <- P [x; y; z] ;;
   inr (ForAll [x; y; z] (Eq lhs rhs)))%exn.

Definition Axiom_RC_4_LeftAbsorptionE : Py.Exn + BoolRef :=
  inr (ForAll [x; y] (Eq (p x (p x y)) (p x y))).

Definition Axiom_RC_5_RightAbsorptionE : Py.Exn + BoolRef :=
  (lhs <- P [x; y; y] ;;
   inr (ForAll [x; y] (Eq lhs (p x y))))%exn.

Definition Axiom_RC_6_LeftMonotonicity : Py.Exn + BoolRef :=
  (a1 <- P [x; y; z] ;;
   lhs <- P [x; z; a1] ;;
   rhs <- P [x; y; z] ;;
   inr (ForAll [x; y; z] (Eq lhs rhs)))%exn.

Definition Axiom_RC_8_ClosureStability : Py.Exn + BoolRef :=
  (a1 <- P [x; y; z] ;;
   a2 <- P [a1; p x y] ;;
   a3 <- P [x; y; z; x] ;;
   lhs <- P [a2; x; a3] ;;
   rhs <- P [x; y; z; x] ;;
   inr (ForAll [x; y; z] (Eq lhs rhs)))%exn.

Definition Axiom_RC_8_ClosureStabilityE : Py.Exn + BoolRef :=
  (a1 <- P [x; y; z] ;;
   a2 <- P [a1; p x y] ;;
   lhs <- P [a2; x] ;;
   rhs <- P [x; y; z; x] ;;
   inr (ForAll [x; y; z] (Eq lhs rhs)))%exn.

Definition Axiom_RC_9_WeakClosureStabilityE : Py.Exn + BoolRef :=
  (a1 <- P [x; y; x] ;;
   a2 <- P [a1; p x y] ;;
   lhs <- P [a2; x] ;;
   rhs <- P [x; y; x; x] ;;
   inr (ForAll [x; y] (Eq lhs rhs)))%exn.

Definition Axiom_K_p : Py.Exn + BoolRef :=
  (lhs <- P [y; p x y] ;;
   inr (ForAll [x; y] (Eq lhs (p x y))))%exn.

Definition Axiom_CornishJ_p : Py.Exn + BoolRef :=
  (lhs <- P [x; y; x] ;;
   rhs <- P [y; x; y] ;;
   inr (ForAll [x; y] (Eq lhs rhs)))%exn.

End Axioms.

Module Theories.

Definition Theory_RC_p : Py.Exn + list BoolRef :=
  sequence_exn
    [ Axioms.Axiom_RC_4_LeftAbsorptionE;
      Catalog.Axiom_RC_5_RightAbsorption;
      Axioms.Axiom_RC_6_LeftMonotonicity;
      Catalog.Axiom_RC_7_Flattening;
      Axioms.Axiom_RC_8_ClosureStability ].

Definition Theory_MBC : Py.Exn + list BoolRef :=
  sequence_exn
    [ Axioms.Axiom_5_Refl; Axioms.Axiom_6_UnitRed;
      Axioms.Axiom_21_M;
      Catalog.Axiom_17_B;
      Axioms.Axiom_16_C;
      Axioms.Quasi_AntiSym_f ].

Definition Theory_Johnstone_J : Py.Exn + list BoolRef :=
  sequence_exn
    [ Axioms.Axiom_5_Refl; Axioms.Axiom_6_UnitRed; Axioms.Axiom_19_MonoDiv ].

Definition Theory_Hoops : Py.Exn + list BoolRef :=
  sequence_exn
    [ Catalog.Axiom_1_Assoc; Axioms.Axiom_2_RightId; Axioms.Axiom_3_LeftId;
      Axioms.Axiom_4_Comm; Axioms.Axiom_5_Refl; Axioms.Axiom_6_UnitRed;
      Axioms.Axiom_7_HoopSym; Axioms.Axiom_8_Resid ].

Definition Theory_HeytingSemilattices : Py.Exn + list BoolRef :=
  (hoops <- Theory_Hoops ;;
   a9 <- Axioms.Axiom_9_Idemp ;;
   inr (hoops ++ [a9])%list)%exn.

(** Every axiom of the module, in the order in which the module builds
    them. *)
Definition all_axioms : list (Py.Exn + BoolRef) :=
  [ Catalog.Axiom_1_Assoc; Axioms.Axiom_2_RightId; Axioms.Axiom_3_LeftId;
    Axioms.Axiom_4_Comm; Axioms.Axiom_5_Refl; Axioms.Axiom_6_UnitRed;
    Axioms.Axiom_7_HoopSym; Axioms.Axiom_8_Resid; Axioms.Axiom_9_Idemp;
    Axioms.Axiom_10_Fusion; Axioms.Axiom_11_T; Axioms.Axiom_12_LowerDiv;
    Axioms.Axiom_13_UpperDiv; Axioms.Axiom_14_K; Catalog.Axiom_15_MP;
    Axioms.Axiom_16_C; Catalog.Axiom_17_B; Axioms.Axiom_18_S;
    Axioms.Axiom_19_MonoDiv; Axioms.Axiom_20_H; Axioms.Axiom_21_M;
    Catalog.Axiom_22_CornishJ;
    Axioms.Quasi_AntiSym_f; Axioms.Quasi_Transitive_f;
    Axioms.Axiom_IAS_Equational_f;
    Axioms.Axiom_RC_1_tReflexivityE; Axioms.Axiom_RC_2_tTransitivityE;
    Catalog.Axiom_RC_3_tAntisymmetryE; Axioms.Axiom_RC_4_LeftAbsorptionE;
    Catalog.Axiom_RC_5_RightAbsorption; Axioms.Axiom_RC_5_RightAbsorptionE;
    Axioms.Axiom_RC_6_LeftMonotonicity; Catalog.Axiom_RC_7_Flattening;
    Axioms.Axiom_RC_8_ClosureStability; Axioms.Axiom_RC_8_ClosureStabilityE;
    Catalog.Axiom_RC_9_WeakClosureStability;
    Axioms.Axiom_RC_9_WeakClosureStabilityE;
    Catalog.Quasi_AntiSym_p; Axioms.Axiom_K_p; Axioms.Axiom_CornishJ_p ].

(** The theories of the module, in source order. *)
Definition all_theories : list (Py.Exn + list BoolRef) :=
  [ Catalog.Theory_WRC_p; Theory_RC_p; Theory_MBC; Theory_Johnstone_J;
    Theory_Hoops; Theory_HeytingSemilattices ].

(** Loading the module: every axiom and then every theory is built; the
    first exception stops the load. *)
Definition module_load : Py.Exn + (list BoolRef * list (list BoolRef)) :=
  (axioms <- sequence_exn all_axioms ;;
   theories <- sequence_exn all_theories ;;
   inr (axioms, theories))%exn.

End Theories.

(* --------------------------------------------------------------------- *)
(** *** Reading formulas *)

(** Names of the constants of a term, with repetitions, left to right. *)
Fixpoint constants (tm : ExprRef) : list string :=
  match tm with
  | Const name => [name]
  | App _ a b => (constants a ++ constants b)%list
  end.

Definition mentions (name : string) (names : list string) : bool :=
  existsb (String.eqb name) names.

(** Names of the constants of a formula that no enclosing [ForAll] binds. *)
Fixpoint free_constants (c : BoolRef) : list string :=
  match c with
  | Eq a b => (constants a ++ constants b)%list
  | Not a => free_constants a
  | And a b => (free_constants a ++ free_constants b)%list
  | Implies a b => (free_constants a ++ free_constants b)%list
  | ForAll vars body =>
      filter (fun name => negb (mentions name (concat (map constants vars))))
        (free_constants body)
  end.

Fixpoint distinct (names : list string) : bool :=
  match names with
  | [] => true
  | name :: rest => negb (mentions name rest) && distinct rest
  end.

(** A universally quantified formula whose only free constant is [e] and
    whose quantified variables are distinct constants, other than [e],
    that all occur in its body. *)
Definition closed_law (c : BoolRef) : bool :=
  forallb (String.eqb "e") (free_constants c)
  && match c with
     | ForAll vars body =>
         forallb (fun var => match var with Const _ => true | _ => false end)
           vars
         && distinct (concat (map constants vars))
         && forallb (fun name => mentions name (free_constants body))
              (concat (map constants vars))
         && negb (mentions "e" (concat (map constants vars)))
     | _ => false
     end.

(** The encoding of an inequality [L <= R] of the relative-closure axioms:
    the equation [p(L, R) == R] (lines 181-182). *)
Definition encodes_leq (law lawE : BoolRef) : Prop :=
  exists vars L R,
    lawE = ForAll vars (Eq L R) /\ law = ForAll vars (Eq (p L R) R).

(* ===================================================================== *)
(** ** The main block (lines 257-284) *)
(* ===================================================================== *)

(** What can leave the main block: [IndexError] from [conclusions[idx]],
    or an exception that left [check], a display or the module load. *)
Inductive MainExn : Type :=
| IndexError (msg : string)
| Propagated (ex : Py.Exn).

Definition MainRun (A : Type) : Type := World -> (MainExn + A) * World.

Definition main_ret {A} (a : A) : MainRun A := fun wd => (inr a, wd).

Definition main_bind {A B} (c : MainRun A) (k : A -> MainRun B) : MainRun B :=
  fun wd =>
    match c wd with
    | (inr a, wd') => k a wd'
    | (inl ex, wd') => (inl ex, wd')
    end.

(** A computation of [check]'s kind, run in the main block. *)
Definition lift {A} (c : Run A) : MainRun A :=
  fun wd =>
    match c wd with
    | (inr a, wd') => (inr a, wd')
    | (inl ex, wd') => (inl (Propagated ex), wd')
    end.

(** [l[idx]] for [idx >= 0]. *)
Definition getitem {A} (l : list A) (idx : nat) : MainRun A :=
  fun wd =>
    match nth_error l idx with
    | Some a => (inr a, wd)
    | None => (inl (IndexError "list index out of range"), wd)
    end.

Declare Scope main_scope.
Delimit Scope main_scope with main.
Notation "x <- c ;; k" := (main_bind c (fun x => k))
  (at level 61, c at next level, right associativity) : main_scope.
Notation "c ;; k" := (main_bind c (fun _ => k))
  (at level 61, right associativity) : main_scope.

Section Main.

Context {float : Type}.
Variable host : Host float.

(** Lines 279-282: the conclusion in the summary; a display that raises an
    [Exception] is replaced by a fixed text. *)
Definition print_summary_conclusion (check_no : nat)
    (conclusion_checked : BoolRef) : Run unit :=
  try_except
    (text <- eval (expr_str host conclusion_checked) ;;
     print ("Conclusion " ++ Py.str_nat check_no ++ ": [" ++ text ++ "]"))
    Py.is_Exception
    (print ("Conclusion " ++ Py.str_nat check_no
              ++ ": [Could not format conclusion]")).

(** Lines 276-283: [for idx, res in enumerate(results)]; [idx] is the index
    of the first element of [results] still to be reported. *)
Fixpoint summary_loop (conclusions : list BoolRef) (idx : nat)
    (results : list string) : MainRun unit :=
  match results with
  | [] => main_ret tt
  | res :: rest =>
      (conclusion_checked <- getitem conclusions idx ;;
       let check_no := idx + 1 in
       lift (print_summary_conclusion check_no conclusion_checked) ;;
       lift (print ("  Result: " ++ res)) ;;
       summary_loop conclusions (S idx) rest)%main
  end.

(** Lines 269-284, for the selection [assumptions], [conclusions] made on
    lines 260-266. *)
Definition main_block (assumptions conclusions : list BoolRef)
    : MainRun unit :=
  (results <- lift (call_check host assumptions conclusions None) ;;
   lift (print (Py.newline ++ Py.repeat_char "=" 70)) ;;
   lift (print "SUMMARY OF CHECKS:") ;;
   lift (print (Py.repeat_char "=" 70)) ;;
   lift (print ("Assumptions Used: " ++ Py.str_nat (length assumptions)
                  ++ " axioms")) ;;
   summary_loop conclusions 0 results ;;
   lift (print (Py.repeat_char "=" 70)))%main.

(** Running the file as a script: the module is loaded, then the main
    block runs on the selection of lines 260-266. *)
Definition script : MainRun unit :=
  (_ <- lift (eval Theories.module_load) ;;
   assumptions <- lift (eval Catalog.main_assumptions) ;;
   conclusions <- lift (eval Catalog.main_conclusions) ;;
   main_block assumptions conclusions)%main.

(** The line of the summary for the conclusion numbered [check_no]. *)
Definition summary_shown (check_no : nat) (concl : BoolRef) : string :=
  match expr_str host concl with
  | inr text => "Conclusion " ++ Py.str_nat check_no ++ ": [" ++ text ++ "]"
  | inl _ => "Conclusion " ++ Py.str_nat check_no
               ++ ": [Could not format conclusion]"
  end.

(** The two summary lines of each conclusion, paired with its result. *)
Fixpoint summary_lines (idx : nat) (conclusions : list BoolRef)
    (results : list string) : list string :=
  match conclusions, results with
  | concl :: conclusions', res :: results' =>
      summary_shown (idx + 1) concl :: ("  Result: " ++ res)
        :: summary_lines (S idx) conclusions' results'
  | _, _ => []
  end.

(** The display of [concl] is caught in the summary: the pretty-printer
    answers or raises an [Exception]. *)
Definition Summarizable (concl : BoolRef) : Prop :=
  (exists text, expr_str host concl = inr text)
  \/ (exists ex, expr_str host concl = inl ex /\ Py.is_Exception ex = true).

(** The exception that leaves the per-check trace of [concl]: the one of
    the pretty-printer when it is not an [Exception], else the one of the
    S-expression dump when it is not an [AttributeError]. *)
Definition Escapes (concl : BoolRef) (ex : Py.Exn) : Prop :=
  (expr_str host concl = inl ex /\ Py.is_Exception ex = false)
  \/ (exists ex0, expr_str host concl = inl ex0
                  /\ Py.is_Exception ex0 = true
                  /\ expr_sexpr host concl = inl ex
                  /\ Py.is_AttributeError ex = false).

End Main.

Definition summary_banner (assumptions : list BoolRef) : list string :=
  [ Py.newline ++ Py.repeat_char "=" 70;
    "SUMMARY OF CHECKS:";
    Py.repeat_char "=" 70;
    "Assumptions Used: " ++ Py.str_nat (length assumptions) ++ " axioms" ].

(** A host whose pretty-printer raises while its S-expression dump
    answers. *)
Definition sexpr_only_host : Host Z :=
  {| solver_check := toy_solver_check;
     expr_str := fun _ => inl (Py.Z3Exception "invalid argument");
     expr_sexpr := fun c => inr (render_bool c);
     wall_clock := fun n => Z.of_nat n;
     float_sub := Z.sub;
     format_3f := millis_3f |}.


(** The heading printed for the conclusion at index [i] of [n]. *)
Definition check_heading (i n : nat) : string :=
  Py.newline ++ "[Check " ++ Py.str_nat (i + 1) ++ "/" ++ Py.str_nat n
    ++ "] Checking Conclusion:".

(** A host whose console cannot encode the text of a formula quantified
    over two variables: both displays of such a formula raise
    [UnicodeEncodeError]; every other display answers. *)
Definition partly_broken_host : Host Z :=
  {| solver_check := toy_solver_check;
     expr_str := fun c =>
       match c with
       | ForAll [_; _] _ => inl (Py.UnicodeEncodeError "ascii")
       | _ => inr (render_bool c)
       end;
     expr_sexpr := fun c =>
       match c with
       | ForAll [_; _] _ => inl (Py.UnicodeEncodeError "ascii")
       | _ => inr (render_bool c)
       end;
     wall_clock := fun n => Z.of_nat n;
     float_sub := Z.sub;
     format_3f := millis_3f |}.

(** A reading of "changing the other conclusions, or a failure on them,
    does not change the classification of a conclusion": a conclusion that
    one run of [check] classifies is classified, with the same status, by
    every run with the same host, assumptions and time budget whose list
    contains it. *)
Definition classification_survives_other_conclusions : Prop :=
  forall (host : Host Z) assumptions conclusions1 conclusions2 timeout_ms
         wd1 wd2 i j concl status,
    nth_error conclusions1 i = Some concl ->
    nth_error conclusions2 j = Some concl ->
    (exists results1 wd1',
       check host assumptions conclusions1 timeout_ms wd1
       = (inr results1, wd1')
       /\ nth_error results1 i = Some status) ->
    exists results2 wd2',
      check host assumptions conclusions2 timeout_ms wd2 = (inr results2, wd2')
      /\ nth_error results2 j = Some status.

(* ===================================================================== *)
(** * Properties *)
(* ===================================================================== *)

(** ** Term builder *)

Example P_three : P [x; y; z] = inr (p (p x y) z).
Proof. reflexivity. Qed.

Example F_nested :
  F [f x y; f (f z x) (f z y)] = inr (f (f x y) (f (f z x) (f z y))).
Proof. reflexivity. Qed.

Example main_selection_builds :
  exists assumptions concl,
    Catalog.main_assumptions = inr assumptions
    /\ length assumptions = 4
    /\ Catalog.main_conclusions = inr [concl]
    /\ concl = ForAll [x; y] (Eq (p (p x y) x) (p (p (p x y) x) y)).
Proof. eexists _, _. repeat split. Qed.

Lemma fold_left_snoc (op : ExprRef -> ExprRef -> ExprRef) rest o arg0 :
  fold_left op (rest ++ [o])%list arg0 = op (fold_left op rest arg0) o.
Proof. now rewrite fold_left_app. Qed.

Lemma fold_left_LeftNested (op : ExprRef -> ExprRef -> ExprRef) arg0 rest :
  LeftNested op (arg0 :: rest) (fold_left op rest arg0).
Proof.
  induction rest as [| o rest IH] using rev_ind.
  - apply LeftNested_one.
  - rewrite fold_left_snoc, app_comm_cons.
    now apply LeftNested_snoc.
Qed.

Lemma total_applications_app ts us :
  total_applications (ts ++ us)%list
  = total_applications ts + total_applications us.
Proof.
  unfold total_applications.
  induction ts as [| a ts IH]; simpl; [reflexivity | rewrite IH; lia].
Qed.

Lemma fold_left_applications (d : FuncDeclRef) arg0 rest :
  applications (fold_left (App d) rest arg0)
  = length rest + total_applications (arg0 :: rest).
Proof.
  induction rest as [| o rest IH] using rev_ind.
  - simpl. lia.
  - rewrite fold_left_snoc, app_comm_cons, total_applications_app, length_app.
    simpl applications. rewrite IH. simpl. lia.
Qed.

(** The shape determines the term: it is the left fold of the operands. *)
Lemma LeftNested_is_fold op os tm :
  LeftNested op os tm ->
  exists arg0 rest, os = arg0 :: rest /\ tm = fold_left op rest arg0.
Proof.
  induction 1 as [o | os o tm H (arg0 & rest & -> & ->)].
  - now exists o, [].
  - exists arg0, (rest ++ [o])%list. split; [reflexivity |].
    now rewrite fold_left_snoc.
Qed.

Lemma LeftNested_functional op os tm1 tm2 :
  LeftNested op os tm1 -> LeftNested op os tm2 -> tm1 = tm2.
Proof.
  intros H1 H2.
  apply LeftNested_is_fold in H1, H2.
  destruct H1 as (a1 & r1 & E1 & ->), H2 as (a2 & r2 & E2 & ->).
  congruence.
Qed.

Lemma left_assoc_shape (d : FuncDeclRef) (args : list ExprRef) :
  args <> [] ->
  exists tm,
    match args with
    | [] => inl (Py.ValueError EmptyString)
    | arg0 :: rest => inr (fold_left (App d) rest arg0)
    end = inr tm
    /\ LeftNested (App d) args tm
    /\ applications tm = (length args - 1) + total_applications args.
Proof.
  destruct args as [| arg0 rest]; [congruence |]. intros _.
  exists (fold_left (App d) rest arg0). split; [reflexivity |]. split.
  - apply fold_left_LeftNested.
  - rewrite fold_left_applications. simpl. lia.
Qed.

(** C4. For a non-empty operand sequence of length N, each of [P], [M] and
    [F] returns a term (no exception) that has the left-nested shape
    [op(op(...op(o1,o2)...,o_{N-1}),o_N)] over its own symbol and contains
    exactly N-1 applications besides those already inside the operands;
    for a single operand the result is that operand. *)
Theorem left_assoc_builds_left_nested (args : list ExprRef)
    (Hne : args <> []) :
  (exists tm, P args = inr tm /\ LeftNested p args tm
              /\ applications tm = (length args - 1) + total_applications args)
  /\ (exists tm, M args = inr tm /\ LeftNested m args tm
                 /\ applications tm
                    = (length args - 1) + total_applications args)
  /\ (exists tm, F args = inr tm /\ LeftNested f args tm
                 /\ applications tm
                    = (length args - 1) + total_applications args)
  /\ (forall o, args = [o] ->
                P args = inr o /\ M args = inr o /\ F args = inr o).
Proof.
  repeat split.
  - destruct (left_assoc_shape (Function "p") args Hne) as (tm & H1 & H2 & H3).
    exists tm. destruct args; [congruence | now repeat split].
  - destruct (left_assoc_shape (Function "m") args Hne) as (tm & H1 & H2 & H3).
    exists tm. destruct args; [congruence | now repeat split].
  - destruct (left_assoc_shape (Function "f") args Hne) as (tm & H1 & H2 & H3).
    exists tm. destruct args; [congruence | now repeat split].
  - subst. reflexivity.
  - subst. reflexivity.
  - subst. reflexivity.
Qed.

Lemma left_assoc_builds_left_nested_witness :
  [x; y; z; w] <> []
  /\ (exists tm, P [x; y; z; w] = inr tm /\ tm = p (p (p x y) z) w
                 /\ applications tm = 3).
Proof.
  split; [discriminate |].
  destruct (left_assoc_builds_left_nested [x; y; z; w]) as [(tm & H1 & _ & H3) _];
    [discriminate |].
  exists tm. split; [exact H1 |]. split.
  - simpl in H1. now inversion H1.
  - exact H3.
Defined.

(** C5. With no operands each of [P], [M] and [F] raises [ValueError] and
    returns no term, and an empty operand tuple is the only way any of them
    raises. *)
Theorem left_assoc_empty_raises :
  P [] = inl (Py.ValueError "Function P requires at least one argument.")
  /\ M [] = inl (Py.ValueError "Function M requires at least one argument.")
  /\ F [] = inl (Py.ValueError "Function F requires at least one argument.")
  /\ (forall args ex, P args = inl ex <-> (args = [] /\ ex = Py.ValueError "Function P requires at least one argument."))
  /\ (forall args ex, M args = inl ex <-> (args = [] /\ ex = Py.ValueError "Function M requires at least one argument."))
  /\ (forall args ex, F args = inl ex <-> (args = [] /\ ex = Py.ValueError "Function F requires at least one argument.")).
Proof.
  repeat split; try reflexivity;
    try (destruct args; simpl in *; congruence);
    try (intros [-> ->]; reflexivity).
Qed.

(** C6. [t(a,b)] is the term [f(f(a,b),b)] and [v(a,b)] is the term
    [t(t(a,b),a)], that is [f(f(f(f(a,b),b),a),a)], as trees of
    applications of the symbol [f]; the arguments can be read back from
    the result, so nothing has been rewritten. *)
Theorem derived_terms_expand (a b : ExprRef) :
  t a b = f (f a b) b
  /\ v a b = t (t a b) a
  /\ v a b = f (f (f (f a b) b) a) a
  /\ v a b = App (Function "f")
               (App (Function "f")
                  (App (Function "f") (App (Function "f") a b) b) a) a
  /\ (forall a' b', t a b = t a' b' -> a = a' /\ b = b')
  /\ (forall a' b', v a b = v a' b' -> a = a' /\ b = b').
Proof.
  repeat split; unfold v, t, f in *; congruence.
Qed.

(** ** The checker *)

Lemma Classifies_status_of res : Classifies res (status_of res).
Proof.
  destruct res as [n]. unfold status_of. simpl.
  destruct n as [| q | q]; try destruct q;
    first [ apply Classifies_unsat | apply Classifies_sat
          | apply Classifies_other; unfold unsat, sat; congruence ].
Qed.

Lemma Classifies_functional res s1 s2 :
  Classifies res s1 -> Classifies res s2 -> s1 = s2.
Proof.
  intros H1 H2; inversion H1; inversion H2; subst;
    try reflexivity; try discriminate; congruence.
Qed.

Lemma status_of_is_status res : is_status (status_of res).
Proof.
  unfold is_status, status_of.
  destruct (r res) as [| q | q]; try destruct q; auto.
Qed.

Lemma status_of_cases res :
  (res = unsat -> status_of res = "holds")
  /\ (res = sat -> status_of res = "doesn't hold")
  /\ (res <> unsat -> res <> sat -> status_of res = "unknown").
Proof.
  repeat split.
  - now intros ->.
  - now intros ->.
  - destruct res as [n]. unfold status_of, unsat, sat. simpl. intros H1 H2.
    destruct n as [| q | q]; try destruct q; try reflexivity;
      exfalso; auto.
Qed.

Lemma after_checks_nil wd : after_checks wd [] [] = wd.
Proof.
  destruct wd. unfold after_checks. simpl.
  now rewrite !app_nil_r, !Nat.add_0_r.
Qed.

Lemma after_checks_compose wd l1 s1 l2 s2 :
  after_checks (after_checks wd l1 s1) l2 s2
  = after_checks wd (l1 ++ l2) (s1 ++ s2).
Proof.
  unfold after_checks. simpl.
  rewrite <- !app_assoc, length_app. f_equal; lia.
Qed.

Lemma emit_after_checks wd lines :
  emit lines wd = after_checks wd lines [].
Proof.
  unfold emit, after_checks. simpl.
  now rewrite app_nil_r, !Nat.add_0_r.
Qed.

Lemma clock_reads_after_checks_nil wd lines :
  clock_reads (after_checks wd lines []) = clock_reads wd.
Proof. cbn. lia. Qed.

Lemma bind_print {A} (s : string) (k : unit -> Run A) (wd : World) :
  bind (print s) k wd = k tt (emit [s] wd).
Proof. reflexivity. Qed.

Lemma emit_emit l1 l2 wd : emit l2 (emit l1 wd) = emit (l1 ++ l2) wd.
Proof. unfold emit. simpl. now rewrite <- app_assoc. Qed.

Section CheckerFacts.

Context {float : Type}.
Variable host : Host float.

Lemma print_conclusion_recoverable concl wd :
  Recoverable host concl ->
  print_conclusion host concl wd = (inr tt, emit [shown host concl] wd).
Proof.
  unfold Recoverable, print_conclusion, shown, try_except, bind, eval, print.
  intros [(text & ->) | (ex & -> & Hex & [(text & ->) | (ex' & -> & Hex')])];
    simpl; try rewrite Hex; try rewrite Hex'; reflexivity.
Qed.

(** When the display is not recoverable the exception leaves
    [print_conclusion], and nothing was printed for the conclusion. *)
Lemma print_conclusion_escapes concl wd :
  ~ Recoverable host concl ->
  exists ex, print_conclusion host concl wd = (inl ex, wd).
Proof.
  unfold Recoverable, print_conclusion, try_except, bind, eval, print.
  intros Hn.
  destruct (expr_str host concl) as [ex | text] eqn:Hs; simpl.
  - destruct (Py.is_Exception ex) eqn:Hex; [| now exists ex].
    destruct (expr_sexpr host concl) as [ex' | text] eqn:Hx; simpl.
    + destruct (Py.is_AttributeError ex') eqn:Hex'; [| now exists ex'].
      exfalso. apply Hn. right. exists ex. repeat split; auto.
      right. now exists ex'.
    + exfalso. apply Hn. right. exists ex. repeat split; auto.
      left. now exists text.
  - exfalso. apply Hn. left. now exists text.
Qed.

Lemma report_result_spec res duration results wd :
  report_result res ("(" ++ format_3f host duration ++ "s)") results wd
  = (inr (results ++ [status_of res])%list,
     emit [result_line host res duration] wd).
Proof.
  unfold report_result, CheckSatResult_eq, status_of, result_line, verdict_of.
  destruct res as [n]. simpl r.
  destruct n as [| q | q]; try destruct q; reflexivity.
Qed.

Lemma check_body_spec assumptions timeout_ms n i concl results wd :
  Recoverable host concl ->
  check_body host assumptions timeout_ms n i concl results wd
  = (inr (results ++ [classification host assumptions timeout_ms concl])%list,
     after_checks wd
       (trace_of host assumptions timeout_ms n i (clock_reads wd) concl)
       [session_for assumptions timeout_ms concl]).
Proof.
  intros Hrec.
  unfold check_body, bind at 1 2 3. cbn [Solver_new print fst snd].
  rewrite (print_conclusion_recoverable _ _ Hrec).
  unfold bind, time_time, Solver_check. cbn [emit clock_reads stdout
    solvers_created solver_queries].
  rewrite report_result_spec.
  unfold print, ret, emit, after_checks, trace_of, classification,
    session_for, Solver_add, Solver_set_timeout, elapsed_from.
  cbn [stdout solvers_created solver_queries clock_reads timeout assertions
       length app].
  rewrite <- !app_assoc. cbn [app].
  repeat f_equal; lia.
Qed.

Lemma check_loop_spec assumptions timeout_ms n :
  forall conclusions i results wd,
    Forall (Recoverable host) conclusions ->
    check_loop host assumptions timeout_ms n i conclusions results wd
    = (inr (results
            ++ map (classification host assumptions timeout_ms) conclusions)%list,
       after_checks wd
         (trace_lines host assumptions timeout_ms n i (clock_reads wd)
            conclusions)
         (map (session_for assumptions timeout_ms) conclusions)).
Proof.
  induction conclusions as [| concl rest IH]; intros i results wd Hall.
  - simpl. unfold ret. now rewrite app_nil_r, after_checks_nil.
  - inversion Hall as [| ? ? Hc Hrest]; subst.
    cbn [check_loop]. unfold bind at 1.
    rewrite (check_body_spec _ _ _ _ _ _ _ Hc).
    rewrite (IH _ _ _ Hrest), after_checks_compose.
    cbn [map trace_lines after_checks clock_reads length app].
    rewrite <- app_assoc. cbn [app].
    replace (clock_reads wd + 2 * 1) with (S (S (clock_reads wd))) by lia.
    reflexivity.
Qed.

(** The whole of [check] when every display is recoverable. *)
Lemma check_spec assumptions conclusions timeout_ms wd :
  Forall (Recoverable host) conclusions ->
  check host assumptions conclusions timeout_ms wd
  = (inr (map (classification host assumptions timeout_ms) conclusions),
     after_checks wd
       (banner_start assumptions timeout_ms
          ++ trace_lines host assumptions timeout_ms (length conclusions) 0
               (clock_reads wd) conclusions
          ++ banner_end)
       (map (session_for assumptions timeout_ms) conclusions)).
Proof.
  intros Hall.
  unfold check. rewrite !bind_print, !emit_emit.
  unfold bind at 1. rewrite (check_loop_spec _ _ _ _ _ _ _ Hall).
  rewrite !bind_print, !emit_emit. unfold ret.
  rewrite emit_after_checks, !after_checks_compose.
  rewrite emit_after_checks, after_checks_compose.
  rewrite clock_reads_after_checks_nil, app_nil_r.
  reflexivity.
Qed.

End CheckerFacts.

Section CheckerEscapes.

Context {float : Type}.
Variable host : Host float.

Lemma Recoverable_decide concl :
  Recoverable host concl \/ ~ Recoverable host concl.
Proof.
  unfold Recoverable.
  destruct (expr_str host concl) as [ex | text] eqn:Hs.
  2: { left. left. now exists text. }
  destruct (Py.is_Exception ex) eqn:Hex.
  2: { right. intros [(tx & Ht) | (ex0 & He & Hb & _)]; congruence. }
  destruct (expr_sexpr host concl) as [ex' | text] eqn:Hx.
  2: { left. right. exists ex. repeat split; auto. left. now exists text. }
  destruct (Py.is_AttributeError ex') eqn:Hex'.
  - left. right. exists ex. repeat split; auto. right. now exists ex'.
  - right. intros [(tx & Ht) | (ex0 & He & Hb & [(tx & Ht) | (ex1 & He1 & Hb1)])];
      congruence.
Qed.

Lemma check_body_escapes assumptions timeout_ms n i concl results wd :
  ~ Recoverable host concl ->
  exists ex wd',
    check_body host assumptions timeout_ms n i concl results wd = (inl ex, wd')
    /\ solver_queries wd' = solver_queries wd.
Proof.
  intros Hn.
  unfold check_body, bind at 1 2 3. cbn [Solver_new print fst snd].
  match goal with
  | |- context [print_conclusion host concl ?w] =>
      destruct (print_conclusion_escapes host concl w Hn) as [ex ->]
  end.
  eexists _, _. split; reflexivity.
Qed.

Lemma check_loop_escapes assumptions timeout_ms n :
  forall conclusions i results wd,
    ~ Forall (Recoverable host) conclusions ->
    exists ex wd',
      check_loop host assumptions timeout_ms n i conclusions results wd
      = (inl ex, wd').
Proof.
  induction conclusions as [| concl rest IH]; intros i results wd Hn.
  - exfalso. apply Hn. constructor.
  - cbn [check_loop]. unfold bind at 1.
    destruct (Recoverable_decide concl) as [Hc | Hc].
    + rewrite (check_body_spec _ _ _ _ _ _ _ _ Hc).
      apply IH. intros Hrest. apply Hn. now constructor.
    + destruct (check_body_escapes assumptions timeout_ms n i concl results
                  wd Hc) as (ex & wd' & -> & _).
      now exists ex, wd'.
Qed.

Lemma check_escapes assumptions conclusions timeout_ms wd :
  ~ Forall (Recoverable host) conclusions ->
  exists ex wd',
    check host assumptions conclusions timeout_ms wd = (inl ex, wd').
Proof.
  intros Hn.
  unfold check, bind at 1 2 3 4 5 6. cbn [print fst snd].
  match goal with
  | |- context [check_loop host ?a ?tm ?n ?i ?cs ?rs ?w] =>
      destruct (check_loop_escapes a tm n cs i rs w Hn) as (ex & wd' & ->)
  end.
  now exists ex, wd'.
Qed.

Lemma trace_lines_result assumptions timeout_ms n :
  forall conclusions i k j concl,
    nth_error conclusions j = Some concl ->
    In (result_line host
          (solver_check host (session_for assumptions timeout_ms concl))
          (elapsed_from host (k + 2 * j)))
       (trace_lines host assumptions timeout_ms n i k conclusions).
Proof.
  induction conclusions as [| c rest IH]; intros i k j concl Hj.
  - destruct j; discriminate.
  - destruct j as [| j]; cbn [trace_lines trace_of app].
    + inversion Hj; subst. replace (k + 2 * 0) with k by lia.
      right. right. now left.
    + do 4 right.
      replace (k + 2 * S j) with (S (S k) + 2 * j) by lia.
      now apply IH.
Qed.

Lemma trace_lines_shown assumptions timeout_ms n :
  forall conclusions i k concl,
    In concl conclusions ->
    In (shown host concl)
       (trace_lines host assumptions timeout_ms n i k conclusions).
Proof.
  induction conclusions as [| c rest IH]; intros i k concl Hin.
  - destruct Hin.
  - cbn [trace_lines trace_of app]. destruct Hin as [-> | Hin].
    + right. now left.
    + do 4 right. now apply IH.
Qed.

End CheckerEscapes.

Section CheckerReturns.

Context {float : Type}.
Variable host : Host float.

Lemma Forall_Recoverable_decide conclusions :
  Forall (Recoverable host) conclusions
  \/ ~ Forall (Recoverable host) conclusions.
Proof.
  induction conclusions as [| c rest [IH | IH]].
  - left. constructor.
  - destruct (Recoverable_decide host c) as [Hc | Hc].
    + left. now constructor.
    + right. intros H. now inversion H.
  - right. intros H. now inversion H.
Qed.

(** [check] returns exactly when every display is recoverable, and what it
    returns and leaves behind is then determined. *)
Lemma check_returns_inv assumptions conclusions timeout_ms wd results wd' :
  check host assumptions conclusions timeout_ms wd = (inr results, wd') ->
  Forall (Recoverable host) conclusions
  /\ results = map (classification host assumptions timeout_ms) conclusions
  /\ wd' = after_checks wd
             (banner_start assumptions timeout_ms
                ++ trace_lines host assumptions timeout_ms (length conclusions)
                     0 (clock_reads wd) conclusions
                ++ banner_end)
             (map (session_for assumptions timeout_ms) conclusions).
Proof.
  intros Hrun.
  destruct (Forall_Recoverable_decide conclusions) as [Hall | Hn].
  - rewrite (check_spec host _ _ _ _ Hall) in Hrun.
    inversion Hrun; subst. now repeat split.
  - destruct (check_escapes host assumptions conclusions timeout_ms wd Hn)
      as (ex & wd0 & Hesc).
    congruence.
Qed.

Lemma check_returns_iff assumptions conclusions timeout_ms wd :
  Forall (Recoverable host) conclusions
  <-> exists results wd',
        check host assumptions conclusions timeout_ms wd = (inr results, wd').
Proof.
  split.
  - intros Hall. eexists _, _. now apply check_spec.
  - intros (results & wd' & Hrun).
    now apply check_returns_inv in Hrun.
Qed.

Lemma classification_Forall2 assumptions timeout_ms conclusions :
  Forall2 (fun concl status =>
             Classifies
               (solver_check host (session_for assumptions timeout_ms concl))
               status)
    conclusions
    (map (classification host assumptions timeout_ms) conclusions).
Proof.
  induction conclusions as [| c rest IH]; constructor; auto.
  apply Classifies_status_of.
Qed.

End CheckerReturns.

(** ** Claims about [check] *)

Example demo_run :
  fst (check (toy_host 7) demo_assumptions demo_conclusions 1000 World_init)
  = inr ["holds"; "doesn't hold"; "unknown"].
Proof. reflexivity. Qed.

(** C1. Every conclusion is classified from the oracle's answer for its
    session: [unsat] gives "holds", [sat] gives "doesn't hold", any other
    answer gives "unknown"; every element of the returned sequence is one
    of these three strings.  For a time budget below [10^15] milliseconds
    [check] returns such a sequence exactly when no display failure
    escapes from the per-check trace. *)
Theorem check_classifies {float} (host : Host float)
    (assumptions conclusions : list BoolRef) (timeout_ms : Z) (wd : World) :
  ((Z.abs timeout_ms < 10 ^ 15)%Z ->
   (Forall (Recoverable host) conclusions
    <-> exists results wd',
          check host assumptions conclusions timeout_ms wd
          = (inr results, wd')))
  /\ (forall results wd',
        check host assumptions conclusions timeout_ms wd = (inr results, wd') ->
        solver_queries wd'
        = (solver_queries wd
             ++ map (session_for assumptions timeout_ms) conclusions)%list
        /\ Forall2 (fun concl status =>
                      let answer :=
                        solver_check host
                          (session_for assumptions timeout_ms concl) in
                      (answer = unsat -> status = "holds")
                      /\ (answer = sat -> status = "doesn't hold")
                      /\ (answer <> unsat -> answer <> sat ->
                          status = "unknown"))
             conclusions results
        /\ Forall (fun status => status = "holds" \/ status = "doesn't hold"
                                 \/ status = "unknown") results).
Proof.
  split; [intros _; apply check_returns_iff |].
  intros results wd' Hrun.
  apply check_returns_inv in Hrun. destruct Hrun as (_ & -> & ->).
  split; [reflexivity |]. split.
  - induction conclusions as [| c rest IH]; constructor; auto.
    apply status_of_cases.
  - apply Forall_forall. intros s Hin. apply in_map_iff in Hin.
    destruct Hin as (c & <- & _). apply status_of_is_status.
Qed.

Lemma check_classifies_witness :
  (Z.abs 1000 < 10 ^ 15)%Z
  /\ Forall (Recoverable (toy_host 7)) demo_conclusions
  /\ exists results wd',
       check (toy_host 7) demo_assumptions demo_conclusions 1000 World_init
       = (inr results, wd')
       /\ results = ["holds"; "doesn't hold"; "unknown"].
Proof.
  assert (H : Forall (Recoverable (toy_host 7)) demo_conclusions).
  { apply Forall_forall; intros c _; left; eexists; reflexivity. }
  assert (Hb : (Z.abs 1000 < 10 ^ 15)%Z) by reflexivity.
  split; [exact Hb |]. split; [exact H |].
  destruct (check_classifies (toy_host 7) demo_assumptions demo_conclusions
              1000 World_init) as [Hret Hprop].
  destruct (proj1 (Hret Hb) H) as (results & wd' & Hrun).
  exists results, wd'. split; [exact Hrun |].
  vm_compute in Hrun. now inversion Hrun.
Defined.

(** C2. The returned sequence has one element per conclusion, in the
    order of the conclusions: its length is the length of the conclusions,
    and its [i]-th element is the classification of the [i]-th conclusion,
    which is also what [check] returns for that conclusion alone.  For a
    time budget below [10^15] milliseconds [check] returns exactly when no
    display failure escapes from the per-check trace. *)
Theorem check_one_result_per_conclusion {float} (host : Host float)
    (assumptions conclusions : list BoolRef) (timeout_ms : Z) (wd : World) :
  ((Z.abs timeout_ms < 10 ^ 15)%Z ->
   (Forall (Recoverable host) conclusions
    <-> exists results wd',
          check host assumptions conclusions timeout_ms wd
          = (inr results, wd')))
  /\ (forall results wd',
        check host assumptions conclusions timeout_ms wd = (inr results, wd') ->
        length results = length conclusions
        /\ (forall i concl,
              nth_error conclusions i = Some concl ->
              exists status,
                nth_error results i = Some status
                /\ Classifies
                     (solver_check host
                        (session_for assumptions timeout_ms concl)) status
                /\ forall wd0,
                     fst (check host assumptions [concl] timeout_ms wd0)
                     = inr [status])).
Proof.
  split; [intros _; apply check_returns_iff |].
  intros results wd' Hrun.
  apply check_returns_inv in Hrun. destruct Hrun as (Hall & -> & ->).
  split; [apply length_map |].
  intros i concl Hi.
  exists (classification host assumptions timeout_ms concl). split.
  - now apply map_nth_error.
  - split; [apply Classifies_status_of |].
    intros wd0. rewrite (check_spec host); [reflexivity |].
    constructor; [| constructor].
    rewrite Forall_forall in Hall. apply Hall.
    eapply nth_error_In; eassumption.
Qed.

Lemma check_one_result_per_conclusion_witness :
  (Z.abs 250 < 10 ^ 15)%Z
  /\ Forall (Recoverable no_sexpr_host) demo_conclusions
  /\ exists results wd',
       check no_sexpr_host [] demo_conclusions 250 World_init = (inr results, wd')
       /\ length results = 3
       /\ nth_error results 1 = Some "doesn't hold".
Proof.
  assert (H : Forall (Recoverable no_sexpr_host) demo_conclusions).
  { apply Forall_forall; intros c _; right; eexists; repeat split;
      right; eexists; split; reflexivity. }
  assert (Hb : (Z.abs 250 < 10 ^ 15)%Z) by reflexivity.
  split; [exact Hb |]. split; [exact H |].
  destruct (check_one_result_per_conclusion no_sexpr_host [] demo_conclusions
              250 World_init) as [Hret Hprop].
  destruct (proj1 (Hret Hb) H) as (results & wd' & Hrun).
  destruct (Hprop results wd' Hrun) as [Hlen _].
  exists results, wd'. split; [exact Hrun |]. split; [exact Hlen |].
  vm_compute in Hrun. now inversion Hrun.
Defined.

(** Two runs that differ only in the clock return the same sequence, so no
    element of it holds the elapsed time: the reading of C3 fails. *)
Lemma check_results_omit_elapsed :
  fst (check (toy_host 1) [] [refl_conclusion] 1000 World_init) = inr ["holds"]
  /\ fst (check (toy_host 5) [] [refl_conclusion] 1000 World_init)
     = inr ["holds"]
  /\ elapsed_from (toy_host 1) 0 = 1%Z
  /\ elapsed_from (toy_host 5) 0 = 5%Z
  /\ ~ results_carry_elapsed.
Proof.
  do 4 (split; [reflexivity |]).
  intros [elapsed_of H].
  assert (R1 : check (toy_host 1) [] [refl_conclusion] 1000 World_init
               = (inr ["holds"],
                  snd (check (toy_host 1) [] [refl_conclusion] 1000
                         World_init)))
    by (vm_compute; reflexivity).
  assert (R5 : check (toy_host 5) [] [refl_conclusion] 1000 World_init
               = (inr ["holds"],
                  snd (check (toy_host 5) [] [refl_conclusion] 1000
                         World_init)))
    by (vm_compute; reflexivity).
  pose proof (H _ _ _ _ _ _ _ R1 0 "holds" eq_refl) as H1.
  pose proof (H _ _ _ _ _ _ _ R5 0 "holds" eq_refl) as H5.
  vm_compute in H1, H5. congruence.
Qed.

(** C3, amended. Each element of the returned sequence is the status
    string alone, one of the three classifications and determined by the
    oracle's answer; the elapsed time of a check is not returned: it is
    printed, in the [:.3f] format, on the result line of that check.  For
    a time budget below [10^15] milliseconds [check] returns exactly when
    no display failure escapes from the per-check trace. *)
Theorem check_returns_status_only {float} (host : Host float)
    (assumptions conclusions : list BoolRef) (timeout_ms : Z) (wd : World) :
  ((Z.abs timeout_ms < 10 ^ 15)%Z ->
   (Forall (Recoverable host) conclusions
    <-> exists results wd',
          check host assumptions conclusions timeout_ms wd
          = (inr results, wd')))
  /\ (forall results wd',
        check host assumptions conclusions timeout_ms wd = (inr results, wd') ->
        Forall2 (fun concl status =>
                   Classifies
                     (solver_check host
                        (session_for assumptions timeout_ms concl)) status)
          conclusions results
        /\ Forall is_status results
        /\ (forall i concl,
              nth_error conclusions i = Some concl ->
              exists verdict,
                In ("  Result: " ++ verdict ++ " ("
                      ++ format_3f host
                           (float_sub host
                              (wall_clock host (S (clock_reads wd + 2 * i)))
                              (wall_clock host (clock_reads wd + 2 * i)))
                      ++ "s)")
                   (stdout wd'))).
Proof.
  split; [intros _; apply check_returns_iff |].
  intros results wd' Hrun.
  apply check_returns_inv in Hrun. destruct Hrun as (_ & -> & ->).
  split; [apply classification_Forall2 |]. split.
  - apply Forall_forall. intros s Hin. apply in_map_iff in Hin.
    destruct Hin as (c & <- & _). apply status_of_is_status.
  - intros i concl Hi.
    exists (verdict_of
              (solver_check host (session_for assumptions timeout_ms concl))).
    cbn [after_checks stdout].
    apply in_or_app. right. apply in_or_app. right.
    apply in_or_app. left.
    exact (trace_lines_result host assumptions timeout_ms (length conclusions)
             conclusions 0 (clock_reads wd) i concl Hi).
Qed.

Lemma check_returns_status_only_witness :
  (Z.abs 1000 < 10 ^ 15)%Z
  /\ Forall (Recoverable (toy_host 42)) [refl_conclusion]
  /\ exists results wd',
       check (toy_host 42) [] [refl_conclusion] 1000 World_init
       = (inr results, wd')
       /\ results = ["holds"]
       /\ In "  Result: HOLDS (Assumptions entail Conclusion) (0.042s)"
            (stdout wd').
Proof.
  assert (H : Forall (Recoverable (toy_host 42)) [refl_conclusion]).
  { apply Forall_forall; intros c _; left; eexists; reflexivity. }
  assert (Hb : (Z.abs 1000 < 10 ^ 15)%Z) by reflexivity.
  split; [exact Hb |]. split; [exact H |].
  destruct (check_returns_status_only (toy_host 42) [] [refl_conclusion]
              1000 World_init) as [Hret _].
  destruct (proj1 (Hret Hb) H) as (results & wd' & Hrun).
  exists results, wd'. split; [exact Hrun |].
  vm_compute in Hrun. inversion Hrun; subst. split; [reflexivity |].
  simpl. tauto.
Defined.

(** A display failure on another conclusion changes the outcome for a
    conclusion: alone, the reflexive equation is classified "holds"; after
    a conclusion whose two displays raise, [check] raises at that
    conclusion, no session is queried and the reflexive equation is never
    classified.  The reading of C7 fails. *)
Lemma check_aborted_by_other_conclusion :
  fst (check partly_broken_host [] [refl_conclusion] 1000 World_init)
  = inr ["holds"]
  /\ (exists wd',
        check partly_broken_host [] [collapse_conclusion; refl_conclusion]
          1000 World_init
        = (inl (Py.UnicodeEncodeError "ascii"), wd')
        /\ solver_queries wd' = [])
  /\ ~ classification_survives_other_conclusions.
Proof.
  split; [vm_compute; reflexivity |]. split.
  - eexists. split; [vm_compute; reflexivity | reflexivity].
  - intros H.
    assert (R : exists wd1',
               check partly_broken_host [] [refl_conclusion] 1000 World_init
               = (inr ["holds"], wd1'))
      by (eexists; vm_compute; reflexivity).
    destruct R as [wd1' R].
    destruct (H partly_broken_host [] [refl_conclusion]
                [collapse_conclusion; refl_conclusion] 1000%Z World_init
                World_init 0 1 refl_conclusion "holds" eq_refl eq_refl)
      as (results2 & wd2' & Hrun & _).
    + exists ["holds"], wd1'. now split.
    + vm_compute in Hrun. discriminate.
Qed.

(** C7, amended. Every conclusion gets a session of its own: [check]
    creates one solver per conclusion, and the session it queries for a
    conclusion holds the time budget, the assumptions and the negation of
    that conclusion, nothing else.  Hence, with an oracle that decides a
    session from its content, the classification of a conclusion is the
    same in any two runs that return, with the same assumptions and time
    budget, wherever the conclusion stands in the list and whatever the
    other conclusions and the oracle's answers for them (inconclusive
    ones included), the clocks, the displays and the earlier history of
    the two runs are.  A display failure that is not recovered, on any
    conclusion of the list, makes [check] raise: then nothing is returned
    and no conclusion of that run has a classification.  (For a time
    budget below [10^15] milliseconds [check] returns in every other
    case.) *)
Theorem check_sessions_independent {float1 float2}
    (host1 : Host float1) (host2 : Host float2)
    (assumptions conclusions1 conclusions2 : list BoolRef) (timeout_ms : Z)
    (wd1 wd2 : World)
    (Horacle : forall s, solver_check host1 s = solver_check host2 s) :
  ((Z.abs timeout_ms < 10 ^ 15)%Z ->
   (Forall (Recoverable host1) conclusions1
    <-> exists results1 wd1',
          check host1 assumptions conclusions1 timeout_ms wd1
          = (inr results1, wd1')))
  /\ (forall results1 wd1' results2 wd2',
        check host1 assumptions conclusions1 timeout_ms wd1
        = (inr results1, wd1') ->
        check host2 assumptions conclusions2 timeout_ms wd2
        = (inr results2, wd2') ->
        solvers_created wd1' = solvers_created wd1 + length conclusions1
        /\ solver_queries wd1'
           = (solver_queries wd1
                ++ map (fun concl =>
                          {| timeout := Some timeout_ms;
                             assertions := (assumptions ++ [Not concl])%list |})
                     conclusions1)%list
        /\ (forall i j concl,
              nth_error conclusions1 i = Some concl ->
              nth_error conclusions2 j = Some concl ->
              exists status,
                nth_error results1 i = Some status
                /\ nth_error results2 j = Some status))
  /\ (forall concl,
        In concl conclusions1 ->
        ~ Recoverable host1 concl ->
        exists ex wd1',
          check host1 assumptions conclusions1 timeout_ms wd1 = (inl ex, wd1')).
Proof.
  split; [intros _; apply check_returns_iff |]. split.
  - intros results1 wd1' results2 wd2' Hrun1 Hrun2.
    apply check_returns_inv in Hrun1, Hrun2.
    destruct Hrun1 as (_ & -> & ->), Hrun2 as (_ & -> & ->).
    split; [cbn [after_checks solvers_created]; now rewrite length_map |].
    split; [reflexivity |].
    intros i j concl Hi Hj.
    exists (classification host1 assumptions timeout_ms concl). split.
    + now apply map_nth_error.
    + unfold classification. rewrite Horacle.
      now apply (map_nth_error
                   (classification host2 assumptions timeout_ms)).
  - intros concl Hin Hn. apply check_escapes.
    intros Hall. rewrite Forall_forall in Hall. exact (Hn (Hall concl Hin)).
Qed.

Lemma check_sessions_independent_witness :
  (forall s, solver_check (toy_host 3) s = solver_check no_sexpr_host s)
  /\ exists results1 wd1' results2 wd2',
       check (toy_host 3) demo_assumptions demo_conclusions 1000 World_init
       = (inr results1, wd1')
       /\ check no_sexpr_host demo_assumptions
            [collapse_conclusion; refl_conclusion] 1000 World_init
          = (inr results2, wd2')
       /\ nth_error results1 0 = nth_error results2 1.
Proof.
  assert (H0 : forall s,
             solver_check (toy_host 3) s = solver_check no_sexpr_host s)
    by reflexivity.
  split; [exact H0 |].
  assert (R1 : check (toy_host 3) demo_assumptions demo_conclusions 1000
                 World_init
               = (inr ["holds"; "doesn't hold"; "unknown"],
                  snd (check (toy_host 3) demo_assumptions demo_conclusions
                         1000 World_init)))
    by (vm_compute; reflexivity).
  assert (R2 : check no_sexpr_host demo_assumptions
                 [collapse_conclusion; refl_conclusion] 1000 World_init
               = (inr ["doesn't hold"; "holds"],
                  snd (check no_sexpr_host demo_assumptions
                         [collapse_conclusion; refl_conclusion] 1000
                         World_init)))
    by (vm_compute; reflexivity).
  destruct (check_sessions_independent (toy_host 3) no_sexpr_host
              demo_assumptions demo_conclusions
              [collapse_conclusion; refl_conclusion] 1000 World_init
              World_init H0) as (_ & Hprop & _).
  destruct (Hprop _ _ _ _ R1 R2) as (_ & _ & Hsame).
  destruct (Hsame 0 1 refl_conclusion eq_refl eq_refl) as (s & E1 & E2).
  eexists _, _, _, _.
  split; [exact R1 |]. split; [exact R2 |].
  now rewrite E1, E2.
Defined.

(** When the pretty-printer and the S-expression dump both raise
    [UnicodeEncodeError], the exception leaves [check] at the first
    conclusion: nothing is returned and no conclusion is classified.  The
    reading of C8 fails. *)
Lemma display_failure_aborts_check :
  expr_str broken_display_host refl_conclusion
  = inl (Py.UnicodeEncodeError "ascii")
  /\ (exists wd',
        check broken_display_host [] [refl_conclusion; collapse_conclusion]
          1000 World_init
        = (inl (Py.UnicodeEncodeError "ascii"), wd')
        /\ solver_queries wd' = [])
  /\ ~ display_failure_never_fatal.
Proof.
  split; [reflexivity |]. split.
  - eexists. split; [vm_compute; reflexivity | reflexivity].
  - intros H.
    destruct (H broken_display_host [] [refl_conclusion] 1000%Z World_init)
      as (results & wd' & Hrun).
    + intros concl _. now exists (Py.UnicodeEncodeError "ascii").
    + vm_compute in Hrun. discriminate.
Qed.

(** C8, amended. When the pretty-printer raises an [Exception] for a
    conclusion, the trace shows its S-expression instead, and the
    placeholder text when the S-expression call raises [AttributeError].
    If the display of every conclusion is recovered in this way (or does
    not fail), [check] returns and classifies every conclusion (for a time
    budget below [10^15] milliseconds).  A display that is not recovered
    in this way ends [check] with the exception. *)
Theorem display_fallback {float} (host : Host float)
    (assumptions conclusions : list BoolRef) (timeout_ms : Z) (wd : World) :
  ((Z.abs timeout_ms < 10 ^ 15)%Z ->
   Forall (Recoverable host) conclusions ->
   exists results wd',
     check host assumptions conclusions timeout_ms wd = (inr results, wd')
     /\ length results = length conclusions
     /\ Forall2 (fun concl status =>
                   Classifies
                     (solver_check host
                        (session_for assumptions timeout_ms concl)) status)
          conclusions results
     /\ (forall concl ex,
           In concl conclusions ->
           expr_str host concl = inl ex ->
           (forall text, expr_sexpr host concl = inr text ->
                         In ("  " ++ text) (stdout wd'))
           /\ (forall ex', expr_sexpr host concl = inl ex' ->
                           In "  [Could not format conclusion]" (stdout wd'))))
  /\ (~ Forall (Recoverable host) conclusions ->
      exists ex wd',
        check host assumptions conclusions timeout_ms wd = (inl ex, wd')).
Proof.
  split.
  - intros _ Hdisplay.
    eexists _, _. split; [apply (check_spec host); exact Hdisplay |].
    split; [apply length_map |]. split.
    + clear Hdisplay.
      induction conclusions as [| c rest IH]; constructor; auto.
      apply Classifies_status_of.
    + intros concl ex Hin Hstr.
      pose proof (trace_lines_shown host assumptions timeout_ms
                    (length conclusions) conclusions 0 (clock_reads wd)
                    concl Hin) as Hshown.
      unfold shown in Hshown. rewrite Hstr in Hshown.
      cbn [after_checks stdout].
      split.
      * intros text Hx. rewrite Hx in Hshown.
        apply in_or_app. right. apply in_or_app. right.
        apply in_or_app. now left.
      * intros ex' Hx. rewrite Hx in Hshown.
        apply in_or_app. right. apply in_or_app. right.
        apply in_or_app. now left.
  - apply check_escapes.
Qed.

Lemma display_fallback_witness :
  (Z.abs 1000 < 10 ^ 15)%Z
  /\ Forall (Recoverable no_sexpr_host) [refl_conclusion; collapse_conclusion]
  /\ exists results wd',
       check no_sexpr_host [] [refl_conclusion; collapse_conclusion] 1000
         World_init = (inr results, wd')
       /\ results = ["holds"; "doesn't hold"]
       /\ In "  [Could not format conclusion]" (stdout wd').
Proof.
  assert (H : Forall (Recoverable no_sexpr_host)
                [refl_conclusion; collapse_conclusion]).
  { apply Forall_forall; intros c _; right; eexists; repeat split;
      right; eexists; split; reflexivity. }
  assert (Hb : (Z.abs 1000 < 10 ^ 15)%Z) by reflexivity.
  split; [exact Hb |]. split; [exact H |].
  destruct (display_fallback no_sexpr_host [] [refl_conclusion;
              collapse_conclusion] 1000 World_init) as [Hok _].
  destruct (Hok Hb H) as (results & wd' & Hrun & _ & _ & Hshow).
  exists results, wd'. split; [exact Hrun |]. split.
  - vm_compute in Hrun. now inversion Hrun.
  - refine (proj2 (Hshow refl_conclusion _ _ eq_refl) _ eq_refl).
    now left.
Defined.

(** C9. A call of [check] without a timeout argument uses 1000
    milliseconds: every session it queries was given the timeout 1000, and
    the header reports "Timeout per check: 1.0 seconds".  A call with an
    argument uses the argument. *)
Theorem check_default_timeout {float} (host : Host float)
    (assumptions conclusions : list BoolRef) (wd : World) :
  (Forall (Recoverable host) conclusions
   <-> exists results wd',
         call_check host assumptions conclusions None wd = (inr results, wd'))
  /\ (forall results wd',
        call_check host assumptions conclusions None wd = (inr results, wd') ->
        exists sessions rest,
          solver_queries wd' = (solver_queries wd ++ sessions)%list
          /\ length sessions = length conclusions
          /\ Forall (fun s => timeout s = Some 1000%Z) sessions
          /\ stdout wd'
             = (stdout wd
                  ++ [ Py.repeat_char "-" 70;
                       "Starting Z3 Checks...";
                       ("Number of Assumptions: "
                          ++ Py.str_nat (length assumptions))%string;
                       "Timeout per check: 1.0 seconds";
                       Py.repeat_char "-" 70 ]
                  ++ rest)%list)
  /\ (forall ms wd0,
        call_check host assumptions conclusions (Some ms) wd0
        = check host assumptions conclusions ms wd0).
Proof.
  unfold call_check, timeout_ms_default.
  split; [apply check_returns_iff |]. split; [| reflexivity].
  intros results wd' Hrun.
  apply check_returns_inv in Hrun. destruct Hrun as (_ & -> & ->).
  eexists _, _. split; [reflexivity |]. split; [apply length_map |]. split.
  - apply Forall_forall. intros s Hin. apply in_map_iff in Hin.
    now destruct Hin as (c & <- & _).
  - cbn [after_checks stdout banner_start app]. reflexivity.
Qed.

Lemma check_default_timeout_witness :
  Forall (Recoverable (toy_host 7)) demo_conclusions
  /\ exists results wd',
       call_check (toy_host 7) demo_assumptions demo_conclusions None
         World_init = (inr results, wd')
       /\ map timeout (solver_queries wd')
          = [Some 1000%Z; Some 1000%Z; Some 1000%Z]
       /\ nth_error (stdout wd') 3 = Some "Timeout per check: 1.0 seconds".
Proof.
  assert (H : Forall (Recoverable (toy_host 7)) demo_conclusions).
  { apply Forall_forall; intros c _; left; eexists; reflexivity. }
  split; [exact H |].
  destruct (check_default_timeout (toy_host 7) demo_assumptions
              demo_conclusions World_init) as (Hret & _ & _).
  destruct (proj1 Hret H) as (results & wd' & Hrun).
  exists results, wd'. split; [exact Hrun |].
  vm_compute in Hrun. inversion Hrun; subst. split; reflexivity.
Defined.



(* ===================================================================== *)
(** * Further properties *)
(* ===================================================================== *)

(** ** Term builder and catalog *)

Lemma fold_left_same_length (d : FuncDeclRef) :
  forall rest rest' arg0 arg0',
    length rest = length rest' ->
    fold_left (App d) rest arg0 = fold_left (App d) rest' arg0' ->
    arg0 = arg0' /\ rest = rest'.
Proof.
  induction rest as [| o rest IH]; intros [| o' rest'] arg0 arg0' Hlen Heq;
    try discriminate.
  - now split.
  - simpl in Hlen, Heq. injection Hlen as Hlen.
    destruct (IH _ _ _ Hlen Heq) as [Happ ->].
    injection Happ as -> ->. now split.
Qed.

Lemma left_assoc_same_length (d : FuncDeclRef) (args args' : list ExprRef) :
  length args = length args' ->
  forall tm,
    match args with
    | [] => inl (Py.ValueError EmptyString)
    | arg0 :: rest => inr (fold_left (App d) rest arg0)
    end = inr tm ->
    match args' with
    | [] => inl (Py.ValueError EmptyString)
    | arg0 :: rest => inr (fold_left (App d) rest arg0)
    end = inr tm ->
    args = args'.
Proof.
  intros Hlen tm H1 H2.
  destruct args as [| a r], args' as [| a' r']; try discriminate.
  injection Hlen as Hlen.
  injection H1 as <-. injection H2 as H2. symmetry in H2.
  now destruct (fold_left_same_length d _ _ _ _ Hlen H2) as [-> ->].
Qed.

(** X1. A left-associative application whose first operand was itself
    built by the same helper is the application to all the operands in one
    row: [P(P(a1,...,ak), b1,...,bn)] is [P(a1,...,ak,b1,...,bn)], and
    likewise for [M] and [F]. *)
Theorem left_assoc_flatten (args1 args2 : list ExprRef)
    (Hne : args1 <> []) :
  (exists tm, P args1 = inr tm
              /\ P (tm :: args2) = P (args1 ++ args2)%list)
  /\ (exists tm, M args1 = inr tm
                 /\ M (tm :: args2) = M (args1 ++ args2)%list)
  /\ (exists tm, F args1 = inr tm
                 /\ F (tm :: args2) = F (args1 ++ args2)%list).
Proof.
  destruct args1 as [| arg0 rest]; [congruence |].
  repeat split; eexists; (split; [reflexivity |]);
    simpl; now rewrite fold_left_app.
Qed.

Lemma left_assoc_flatten_witness :
  [x; y; x] <> []
  /\ exists tm, P [x; y; x] = inr tm
                /\ P [tm; p x y; x] = P [x; y; x; p x y; x].
Proof.
  split; [discriminate |].
  destruct (left_assoc_flatten [x; y; x] [p x y; x]) as [(tm & H1 & H2) _];
    [discriminate |].
  exists tm. now split.
Defined.

(** X2. The operands of a left-associative application can be read back
    from the term when their number is known: two operand tuples of the
    same length that give the same term are equal.  The number itself
    cannot be read back: [P(p(a,b), c)] and [P(a, b, c)] are the same
    term. *)
Theorem left_assoc_operands_read_back (args args' : list ExprRef)
    (Hlen : length args = length args') :
  (forall tm, P args = inr tm -> P args' = inr tm -> args = args')
  /\ (forall tm, M args = inr tm -> M args' = inr tm -> args = args')
  /\ (forall tm, F args = inr tm -> F args' = inr tm -> args = args')
  /\ (forall a b c, P [p a b; c] = P [a; b; c]
                    /\ M [m a b; c] = M [a; b; c]
                    /\ F [f a b; c] = F [a; b; c]).
Proof.
  repeat split.
  - intros tm H1 H2.
    apply (left_assoc_same_length (Function "p") args args' Hlen tm);
      [destruct args | destruct args']; assumption || discriminate.
  - intros tm H1 H2.
    apply (left_assoc_same_length (Function "m") args args' Hlen tm);
      [destruct args | destruct args']; assumption || discriminate.
  - intros tm H1 H2.
    apply (left_assoc_same_length (Function "f") args args' Hlen tm);
      [destruct args | destruct args']; assumption || discriminate.
Qed.

Lemma left_assoc_operands_read_back_witness :
  length [x; y; z] = length [x; y; z]
  /\ (forall tm, P [x; y; z] = inr tm -> P [x; y; z] = inr tm ->
                 [x; y; z] = [x; y; z]).
Proof.
  split; [reflexivity |].
  exact (proj1 (left_assoc_operands_read_back [x; y; z] [x; y; z] eq_refl)).
Defined.

(** X3. Loading the module raises nothing: its 40 axioms and 6 theories
    are built, and every axiom, hence every member of every theory, is a
    closed law: a [ForAll] over distinct variables that all occur in its
    body, with no free constant but [e]. *)
Theorem module_load_builds_closed_laws :
  exists axioms theories,
    Theories.module_load = inr (axioms, theories)
    /\ length axioms = 40
    /\ length theories = 6
    /\ Forall (fun law => closed_law law = true) axioms
    /\ Forall (Forall (fun law => closed_law law = true)) theories.
Proof.
  eexists _, _. split; [vm_compute; reflexivity |].
  split; [reflexivity |]. split; [reflexivity |].
  split; repeat constructor.
Qed.

(** X4. The inequational closure axioms follow the encoding announced on
    lines 181-182: right absorption (5), closure stability (8) and weak
    closure stability (9) are [p(L, R) == R] for the sides [L], [R] of
    their equational variants, under the same quantifier. *)
Theorem rc_inequalities_encode_their_equations :
  exists a5 a5E a8 a8E a9 a9E,
    Catalog.Axiom_RC_5_RightAbsorption = inr a5
    /\ Axioms.Axiom_RC_5_RightAbsorptionE = inr a5E
    /\ Axioms.Axiom_RC_8_ClosureStability = inr a8
    /\ Axioms.Axiom_RC_8_ClosureStabilityE = inr a8E
    /\ Catalog.Axiom_RC_9_WeakClosureStability = inr a9
    /\ Axioms.Axiom_RC_9_WeakClosureStabilityE = inr a9E
    /\ encodes_leq a5 a5E
    /\ encodes_leq a8 a8E
    /\ encodes_leq a9 a9E.
Proof.
  eexists _, _, _, _, _, _.
  do 6 (split; [reflexivity |]).
  repeat split; eexists _, _, _; split; reflexivity.
Qed.

(** ** The checker: composition, trace layout, failure *)

Section CheckerFurther.

Context {float : Type}.
Variable host : Host float.

Lemma Escapes_not_Recoverable concl ex :
  Escapes host concl ex -> ~ Recoverable host concl.
Proof.
  intros [[Hs Hb] | (ex0 & Hs & Hb & Hx & Hb')]
         [(text & Ht) | (ex1 & Hs1 & Hb1 & [(text & Ht) | (ex2 & Hx2 & Hb2)])];
    congruence.
Qed.

Lemma not_Recoverable_Escapes concl :
  ~ Recoverable host concl -> exists ex, Escapes host concl ex.
Proof.
  intros Hn. unfold Escapes.
  destruct (expr_str host concl) as [ex | text] eqn:Hs.
  2: { exfalso. apply Hn. left. now exists text. }
  destruct (Py.is_Exception ex) eqn:Hb.
  2: { exists ex. now left. }
  destruct (expr_sexpr host concl) as [ex' | text] eqn:Hx.
  2: { exfalso. apply Hn. right. exists ex. repeat split; auto.
       left. now exists text. }
  destruct (Py.is_AttributeError ex') eqn:Hb'.
  - exfalso. apply Hn. right. exists ex. repeat split; auto.
    right. now exists ex'.
  - exists ex'. right. now exists ex.
Qed.

Lemma print_conclusion_Escapes concl ex wd :
  Escapes host concl ex ->
  print_conclusion host concl wd = (inl ex, wd).
Proof.
  unfold print_conclusion, try_except, bind, eval, print.
  intros [[Hs Hb] | (ex0 & Hs & Hb & Hx & Hb')]; rewrite Hs; simpl.
  - now rewrite Hb.
  - rewrite Hb, Hx. simpl. now rewrite Hb'.
Qed.

(** The world in which a check was abandoned at the display of its
    conclusion: the solver was created and the heading printed. *)
Lemma check_body_Escapes assumptions timeout_ms n i concl results wd ex :
  Escapes host concl ex ->
  check_body host assumptions timeout_ms n i concl results wd
  = (inl ex,
     {| stdout :=
          (stdout wd
             ++ [check_heading i n])%list;
        solvers_created := S (solvers_created wd);
        solver_queries := solver_queries wd;
        clock_reads := clock_reads wd |}).
Proof.
  intros Hesc.
  unfold check_body, bind at 1 2 3. cbn [Solver_new print fst snd].
  now rewrite (print_conclusion_Escapes _ _ _ Hesc).
Qed.

Lemma check_loop_app assumptions timeout_ms n :
  forall pre rest i results wd,
    check_loop host assumptions timeout_ms n i (pre ++ rest) results wd
    = bind (check_loop host assumptions timeout_ms n i pre results)
        (fun rs =>
           check_loop host assumptions timeout_ms n (i + length pre) rest rs)
        wd.
Proof.
  induction pre as [| c pre IH]; intros rest i results wd.
  - cbn [app check_loop length]. unfold bind, ret.
    now rewrite Nat.add_0_r.
  - rewrite <- app_comm_cons. simpl check_loop. simpl length. unfold bind.
    destruct (check_body host assumptions timeout_ms n i c results wd)
      as [[ex | rs] wd1]; [reflexivity |].
    rewrite IH. unfold bind.
    now replace (S i + length pre) with (i + S (length pre)) by lia.
Qed.

Lemma Forall_split_first (R : BoolRef -> Prop) :
  (forall c, R c \/ ~ R c) ->
  forall l, ~ Forall R l ->
            exists pre c post,
              l = (pre ++ c :: post)%list /\ Forall R pre /\ ~ R c.
Proof.
  intros Hdec. induction l as [| a l IH]; intros Hn.
  - exfalso. apply Hn. constructor.
  - destruct (Hdec a) as [Ha | Ha].
    + destruct IH as (pre & c & post & -> & Hpre & Hc).
      { intros Hl. apply Hn. now constructor. }
      exists (a :: pre), c, post. repeat split; auto.
    + exists [], a, l. repeat split; auto.
Qed.

(** [check] on a list whose first escaping display is that of [concl]. *)
Lemma check_stops assumptions pre concl post timeout_ms wd ex :
  Forall (Recoverable host) pre ->
  Escapes host concl ex ->
  check host assumptions (pre ++ concl :: post) timeout_ms wd
  = (inl ex,
     {| stdout :=
          (stdout wd
             ++ banner_start assumptions timeout_ms
             ++ trace_lines host assumptions timeout_ms
                  (length (pre ++ concl :: post)) 0 (clock_reads wd) pre
             ++ [check_heading (length pre)
                   (length (pre ++ concl :: post))])%list;
        solvers_created := S (solvers_created wd + length pre);
        solver_queries :=
          (solver_queries wd
             ++ map (session_for assumptions timeout_ms) pre)%list;
        clock_reads := clock_reads wd + 2 * length pre |}).
Proof.
  intros Hpre Hesc.
  unfold check. rewrite !bind_print, !emit_emit.
  unfold bind at 1. rewrite check_loop_app. unfold bind at 1.
  rewrite (check_loop_spec host _ _ _ _ _ _ _ Hpre).
  cbn [check_loop]. unfold bind at 1.
  rewrite (check_body_Escapes _ _ _ _ _ _ _ _ Hesc).
  unfold after_checks, emit.
  cbn [stdout solvers_created solver_queries clock_reads app].
  rewrite length_map, <- !app_assoc. cbn [app Nat.add].
  reflexivity.
Qed.

Lemma trace_lines_length assumptions timeout_ms n :
  forall conclusions i k,
    length (trace_lines host assumptions timeout_ms n i k conclusions)
    = 4 * length conclusions.
Proof.
  induction conclusions as [| c rest IH]; intros i k; [reflexivity |].
  simpl. rewrite IH. lia.
Qed.

Lemma trace_lines_nth assumptions timeout_ms n :
  forall conclusions i k j concl o,
    nth_error conclusions j = Some concl ->
    o < 4 ->
    nth_error (trace_lines host assumptions timeout_ms n i k conclusions)
      (4 * j + o)
    = nth_error (trace_of host assumptions timeout_ms n (i + j) (k + 2 * j)
                   concl) o.
Proof.
  induction conclusions as [| c rest IH]; intros i k j concl o Hj Ho.
  - destruct j; discriminate.
  - destruct j as [| j].
    + injection Hj as ->. cbn [trace_lines].
      rewrite Nat.mul_0_r, !Nat.add_0_r. cbn [Nat.add].
      rewrite nth_error_app1; [reflexivity |]. simpl. lia.
    + cbn [trace_lines].
      rewrite nth_error_app2; [| simpl; lia].
      replace (4 * S j + o - length
                 (trace_of host assumptions timeout_ms n i k c))
        with (4 * j + o) by (simpl; lia).
      rewrite (IH (S i) (S (S k)) j concl o Hj Ho).
      now replace (S i + j) with (i + S j) by lia;
        replace (S (S k) + 2 * j) with (k + 2 * S j) by lia.
Qed.

End CheckerFurther.

(** X5. [check] on a concatenation of two conclusion lists returns the
    results for the first list followed by the results for the second:
    it returns exactly when it returns on both, whatever worlds the
    separate runs start from. *)
Theorem check_concatenation {float} (host : Host float)
    (assumptions conclusions1 conclusions2 : list BoolRef) (timeout_ms : Z)
    (wd wd1 wd2 : World) :
  (forall results wd',
     check host assumptions (conclusions1 ++ conclusions2) timeout_ms wd
     = (inr results, wd') ->
     exists results1 results2,
       fst (check host assumptions conclusions1 timeout_ms wd1) = inr results1
       /\ fst (check host assumptions conclusions2 timeout_ms wd2)
          = inr results2
       /\ results = (results1 ++ results2)%list)
  /\ (forall results1 results2,
        fst (check host assumptions conclusions1 timeout_ms wd1)
        = inr results1 ->
        fst (check host assumptions conclusions2 timeout_ms wd2)
        = inr results2 ->
        fst (check host assumptions (conclusions1 ++ conclusions2) timeout_ms
               wd)
        = inr (results1 ++ results2)%list).
Proof.
  split.
  - intros results wd' Hrun.
    apply check_returns_inv in Hrun. destruct Hrun as (Hall & -> & _).
    apply Forall_app in Hall. destruct Hall as [H1 H2].
    eexists _, _.
    rewrite (check_spec host _ _ _ wd1 H1), (check_spec host _ _ _ wd2 H2).
    repeat split. apply map_app.
  - intros results1 results2 Hrun1 Hrun2.
    destruct (check host assumptions conclusions1 timeout_ms wd1)
      as [res1 wd1'] eqn:E1.
    destruct (check host assumptions conclusions2 timeout_ms wd2)
      as [res2 wd2'] eqn:E2.
    simpl in Hrun1, Hrun2. subst.
    apply check_returns_inv in E1, E2.
    destruct E1 as (H1 & -> & _), E2 as (H2 & -> & _).
    rewrite (check_spec host); [| apply Forall_app; now split].
    simpl. now rewrite map_app.
Qed.

Lemma check_concatenation_witness :
  exists results,
    fst (check (toy_host 7) demo_assumptions
           ([refl_conclusion] ++ [collapse_conclusion; refl_conclusion])
           1000 World_init) = inr results
    /\ results = (["holds"] ++ ["doesn't hold"; "holds"])%list.
Proof.
  assert (R1 : fst (check (toy_host 7) demo_assumptions [refl_conclusion]
                      1000 World_init) = inr ["holds"])
    by (vm_compute; reflexivity).
  assert (R2 : fst (check (toy_host 7) demo_assumptions
                      [collapse_conclusion; refl_conclusion] 1000 World_init)
               = inr ["doesn't hold"; "holds"])
    by (vm_compute; reflexivity).
  eexists. split; [| reflexivity].
  exact (proj2 (check_concatenation (toy_host 7) demo_assumptions
                  [refl_conclusion] [collapse_conclusion; refl_conclusion]
                  1000 World_init World_init World_init) _ _ R1 R2).
Defined.

Lemma status_verdict_agree res :
  (status_of res = "holds"
   /\ verdict_of res = "HOLDS (Assumptions entail Conclusion)")
  \/ (status_of res = "doesn't hold"
      /\ verdict_of res = "DOESN'T HOLD (Found countermodel/scenario)")
  \/ (status_of res = "unknown"
      /\ verdict_of res = "UNKNOWN (Timeout or resource limit?)").
Proof.
  unfold status_of, verdict_of.
  destruct (r res) as [| q | q]; try destruct q; auto.
Qed.

Lemma check_stdout_nth {float} (host : Host float)
    assumptions conclusions timeout_ms wd results wd' i concl o :
  check host assumptions conclusions timeout_ms wd = (inr results, wd') ->
  nth_error conclusions i = Some concl ->
  o < 4 ->
  nth_error (stdout wd') (length (stdout wd) + 5 + 4 * i + o)
  = nth_error (trace_of host assumptions timeout_ms (length conclusions) i
                 (clock_reads wd + 2 * i) concl) o.
Proof.
  intros Hrun Hi Ho.
  apply check_returns_inv in Hrun. destruct Hrun as (_ & _ & ->).
  unfold after_checks. cbn [stdout].
  rewrite nth_error_app2 by lia.
  replace (length (stdout wd) + 5 + 4 * i + o - length (stdout wd))
    with (5 + (4 * i + o)) by lia.
  rewrite nth_error_app2 by (simpl; lia).
  replace (5 + (4 * i + o) - length (banner_start assumptions timeout_ms))
    with (4 * i + o) by (simpl; lia).
  rewrite nth_error_app1.
  - now rewrite (trace_lines_nth host assumptions timeout_ms
                   (length conclusions) conclusions 0 (clock_reads wd) i
                   concl o Hi Ho).
  - rewrite trace_lines_length.
    assert (i < length conclusions)
      by (apply nth_error_Some; congruence).
    lia.
Qed.

Lemma check_stdout_length {float} (host : Host float)
    assumptions conclusions timeout_ms wd results wd' :
  check host assumptions conclusions timeout_ms wd = (inr results, wd') ->
  length (stdout wd') = length (stdout wd) + 8 + 4 * length conclusions.
Proof.
  intros Hrun.
  apply check_returns_inv in Hrun. destruct Hrun as (_ & _ & ->).
  unfold after_checks. cbn [stdout].
  rewrite !length_app, trace_lines_length. simpl. lia.
Qed.

(** X6. When [check] returns, the console has grown by exactly 8 + 4N
    lines for N conclusions and the clock was read 2N times.  After the
    five header lines, check [i] owns four consecutive lines: its heading
    "[Check i+1/N]", the conclusion (its pretty-printed text, else its
    S-expression, else the placeholder), the result line and a rule of 25
    dashes.  The verdict printed on the result line agrees with the status
    returned for that conclusion. *)
Theorem check_trace_layout {float} (host : Host float)
    (assumptions conclusions : list BoolRef) (timeout_ms : Z)
    (wd : World) (results : list string) (wd' : World)
    (Hrun : check host assumptions conclusions timeout_ms wd
            = (inr results, wd')) :
  length (stdout wd') = length (stdout wd) + 8 + 4 * length conclusions
  /\ clock_reads wd' = clock_reads wd + 2 * length conclusions
  /\ (forall i concl,
        nth_error conclusions i = Some concl ->
        let base := length (stdout wd) + 5 + 4 * i in
        nth_error (stdout wd') base
        = Some (Py.newline ++ "[Check " ++ Py.str_nat (i + 1) ++ "/"
                  ++ Py.str_nat (length conclusions)
                  ++ "] Checking Conclusion:")
        /\ nth_error (stdout wd') (base + 1) = Some (shown host concl)
        /\ (forall text,
              expr_str host concl = inr text ->
              nth_error (stdout wd') (base + 1) = Some ("  " ++ text))
        /\ (forall ex text,
              expr_str host concl = inl ex ->
              expr_sexpr host concl = inr text ->
              nth_error (stdout wd') (base + 1) = Some ("  " ++ text))
        /\ (forall ex ex',
              expr_str host concl = inl ex ->
              expr_sexpr host concl = inl ex' ->
              nth_error (stdout wd') (base + 1)
              = Some "  [Could not format conclusion]")
        /\ nth_error (stdout wd') (base + 3) = Some (Py.repeat_char "-" 25)
        /\ exists status verdict,
             nth_error results i = Some status
             /\ nth_error (stdout wd') (base + 2)
                = Some ("  Result: " ++ verdict ++ " ("
                          ++ format_3f host
                               (float_sub host
                                  (wall_clock host
                                     (S (clock_reads wd + 2 * i)))
                                  (wall_clock host (clock_reads wd + 2 * i)))
                          ++ "s)")
             /\ ((status = "holds"
                  /\ verdict = "HOLDS (Assumptions entail Conclusion)")
                 \/ (status = "doesn't hold"
                     /\ verdict = "DOESN'T HOLD (Found countermodel/scenario)")
                 \/ (status = "unknown"
                     /\ verdict = "UNKNOWN (Timeout or resource limit?)"))).
Proof.
  pose proof (check_returns_inv host _ _ _ _ _ _ Hrun) as (_ & Hres & Hwd).
  split; [| split].
  - exact (check_stdout_length host _ _ _ _ _ _ Hrun).
  - rewrite Hwd. unfold after_checks. cbn [clock_reads].
    now rewrite length_map.
  - intros i concl Hi base. subst base.
    assert (Hshown : nth_error (stdout wd')
                       (length (stdout wd) + 5 + 4 * i + 1)
                     = Some (shown host concl)).
    { rewrite (check_stdout_nth host _ _ _ _ _ _ i concl 1 Hrun Hi)
        by lia.
      reflexivity. }
    split; [| split; [| split; [| split; [| split; [| split]]]]].
    + rewrite <- (Nat.add_0_r (length (stdout wd) + 5 + 4 * i)).
      rewrite (check_stdout_nth host _ _ _ _ _ _ i concl 0 Hrun Hi)
        by lia.
      reflexivity.
    + exact Hshown.
    + intros text Ht. rewrite Hshown. unfold shown. now rewrite Ht.
    + intros ex text He Hx. rewrite Hshown. unfold shown.
      now rewrite He, Hx.
    + intros ex ex' He Hx. rewrite Hshown. unfold shown.
      now rewrite He, Hx.
    + rewrite (check_stdout_nth host _ _ _ _ _ _ i concl 3 Hrun Hi)
        by lia.
      reflexivity.
    + exists (status_of
                (solver_check host
                   (session_for assumptions timeout_ms concl))),
             (verdict_of
                (solver_check host
                   (session_for assumptions timeout_ms concl))).
      split; [| split].
      * rewrite Hres.
        now apply (map_nth_error
                     (classification host assumptions timeout_ms)).
      * rewrite (check_stdout_nth host _ _ _ _ _ _ i concl 2 Hrun Hi)
          by lia.
        reflexivity.
      * apply status_verdict_agree.
Qed.

Lemma check_trace_layout_witness :
  exists results wd',
    check (toy_host 7) demo_assumptions demo_conclusions 1000 World_init
    = (inr results, wd')
    /\ length (stdout wd') = 20
    /\ clock_reads wd' = 6.
Proof.
  assert (R : check (toy_host 7) demo_assumptions demo_conclusions 1000
                World_init
              = (inr ["holds"; "doesn't hold"; "unknown"],
                 snd (check (toy_host 7) demo_assumptions demo_conclusions
                        1000 World_init)))
    by (vm_compute; reflexivity).
  destruct (check_trace_layout (toy_host 7) demo_assumptions demo_conclusions
              1000 World_init _ _ R) as (Hlen & Hclock & _).
  eexists _, _. split; [exact R |]. split; [exact Hlen | exact Hclock].
Defined.



(** X8. For a time budget below [10^15] milliseconds, whether [check]
    returns or raises, it only adds to the world: the console keeps what
    was on it and gains the five header lines first; the sessions queried
    are those of an initial segment of the conclusions, in order, each
    with the given time budget, the assumptions and the negated
    conclusion; the clock is read twice per query; and at most one solver
    is created without being queried. *)
Theorem check_only_extends_world {float} (host : Host float)
    (assumptions conclusions : list BoolRef) (timeout_ms : Z) (wd : World)
    (Hrange : (Z.abs timeout_ms < 10 ^ 15)%Z) :
  exists rest checked remaining,
    let wd' := snd (check host assumptions conclusions timeout_ms wd) in
    stdout wd'
    = (stdout wd ++ banner_start assumptions timeout_ms ++ rest)%list
    /\ conclusions = (checked ++ remaining)%list
    /\ solver_queries wd'
       = (solver_queries wd
            ++ map (fun concl =>
                      {| timeout := Some timeout_ms;
                         assertions := (assumptions ++ [Not concl])%list |})
                 checked)%list
    /\ clock_reads wd' = clock_reads wd + 2 * length checked
    /\ (solvers_created wd' = solvers_created wd + length checked
        \/ (remaining <> []
            /\ solvers_created wd' = solvers_created wd + length checked + 1)).
Proof.
  destruct (Forall_Recoverable_decide host conclusions) as [Hall | Hn].
  - exists (trace_lines host assumptions timeout_ms (length conclusions) 0
              (clock_reads wd) conclusions ++ banner_end)%list,
           conclusions, [].
    cbv zeta. rewrite (check_spec host _ _ _ _ Hall).
    cbn [snd after_checks stdout solver_queries clock_reads solvers_created].
    rewrite length_map.
    split; [reflexivity |]. split; [symmetry; apply app_nil_r |].
    split; [reflexivity |]. split; [reflexivity |]. now left.
  - destruct (Forall_split_first (Recoverable host) (Recoverable_decide host)
                conclusions Hn) as (pre & c & post & -> & Hpre & Hc).
    destruct (not_Recoverable_Escapes host c Hc) as [ex Hesc].
    eexists _, pre, (c :: post). cbv zeta.
    rewrite (check_stops host _ _ _ _ _ _ _ Hpre Hesc).
    cbn [snd stdout solver_queries clock_reads solvers_created].
    split; [reflexivity |]. split; [reflexivity |].
    split; [reflexivity |]. split; [reflexivity |].
    right. split; [discriminate | lia].
Qed.

Lemma check_only_extends_world_witness :
  (Z.abs 1000 < 10 ^ 15)%Z
  /\ exists rest,
       stdout (snd (check partly_broken_host []
                      [refl_conclusion; collapse_conclusion; refl_conclusion]
                      1000 World_init))
       = (banner_start [] 1000 ++ rest)%list
       /\ length rest = 5.
Proof.
  assert (Hb : (Z.abs 1000 < 10 ^ 15)%Z) by reflexivity.
  split; [exact Hb |].
  destruct (check_only_extends_world partly_broken_host []
              [refl_conclusion; collapse_conclusion; refl_conclusion] 1000
              World_init Hb) as (rest & checked & remaining & Hout & _).
  exists rest. cbv zeta in Hout. split; [exact Hout |].
  assert (R : stdout (snd (check partly_broken_host []
                             [refl_conclusion; collapse_conclusion;
                              refl_conclusion] 1000 World_init))
              = (banner_start [] 1000
                   ++ [ check_heading 0 3;
                        "  ForAll([x], x == x)";
                        "  Result: HOLDS (Assumptions entail Conclusion) (0.001s)";
                        Py.repeat_char "-" 25;
                        check_heading 1 3 ])%list)
    by (vm_compute; reflexivity).
  rewrite R in Hout.
  change (stdout World_init) with (@nil string) in Hout.
  rewrite app_nil_l in Hout.
  apply app_inv_head in Hout. now subst rest.
Defined.

(** ** The main block *)

Lemma lift_print_bind {A} (s : string) (k : unit -> MainRun A) (wd : World) :
  main_bind (lift (print s)) k wd = k tt (emit [s] wd).
Proof. reflexivity. Qed.

Lemma lift_bind {A B} (c : Run A) (k : A -> MainRun B) wd a wd1 :
  c wd = (inr a, wd1) -> main_bind (lift c) k wd = k a wd1.
Proof. intros H. unfold main_bind, lift. now rewrite H. Qed.

Lemma main_bind_returns {A B} (c : MainRun A) (k : A -> MainRun B) wd a wd1 :
  c wd = (inr a, wd1) -> main_bind c k wd = k a wd1.
Proof. intros H. unfold main_bind. now rewrite H. Qed.

Lemma getitem_bind {A B} (l : list A) idx (k : A -> MainRun B) wd a :
  nth_error l idx = Some a -> main_bind (getitem l idx) k wd = k a wd.
Proof. intros H. unfold main_bind, getitem. now rewrite H. Qed.

Section MainFacts.

Context {float : Type}.
Variable host : Host float.

Lemma Recoverable_Summarizable concl :
  Recoverable host concl -> Summarizable host concl.
Proof.
  intros [H | (ex & Hs & Hb & _)]; [now left | right; now exists ex].
Qed.

Lemma print_summary_conclusion_spec check_no concl wd :
  Summarizable host concl ->
  print_summary_conclusion host check_no concl wd
  = (inr tt, emit [summary_shown host check_no concl] wd).
Proof.
  unfold print_summary_conclusion, summary_shown, try_except, bind, eval,
    print.
  intros [(text & ->) | (ex & -> & Hb)]; simpl; [| rewrite Hb]; reflexivity.
Qed.

Lemma summary_loop_spec :
  forall results pre conclusions wd,
    length results <= length conclusions ->
    Forall (Summarizable host) conclusions ->
    summary_loop host (pre ++ conclusions) (length pre) results wd
    = (inr tt,
       emit (summary_lines host (length pre) conclusions results) wd).
Proof.
  induction results as [| res results IH]; intros pre conclusions wd Hlen Hall.
  - simpl. unfold main_ret, emit. destruct conclusions; simpl;
      rewrite app_nil_r; now destruct wd.
  - destruct conclusions as [| c conclusions]; [simpl in Hlen; lia |].
    inversion Hall as [| ? ? Hc Hrest]; subst.
    simpl summary_loop.
    rewrite (getitem_bind _ _ _ _ c)
      by (rewrite nth_error_app2, Nat.sub_diag by lia; reflexivity).
    cbv beta zeta.
    rewrite (lift_bind _ _ _ _ _ (print_summary_conclusion_spec _ _ _ Hc)).
    cbv beta. rewrite lift_print_bind.
    replace (pre ++ c :: conclusions)%list
      with ((pre ++ [c]) ++ conclusions)%list by now rewrite <- app_assoc.
    replace (S (length pre)) with (length (pre ++ [c])%list)
      by (rewrite length_app; simpl; lia).
    rewrite IH; [| simpl in Hlen; lia | exact Hrest].
    rewrite !emit_emit. simpl summary_lines.
    rewrite length_app. simpl length.
    now replace (length pre + 1) with (S (length pre)) by lia.
Qed.

Lemma main_block_spec assumptions conclusions wd results wd1 :
  call_check host assumptions conclusions None wd = (inr results, wd1) ->
  main_block host assumptions conclusions wd
  = (inr tt,
     emit (summary_banner assumptions
             ++ summary_lines host 0 conclusions results
             ++ [Py.repeat_char "=" 70]) wd1).
Proof.
  intros Hrun.
  pose proof Hrun as Hinv. unfold call_check in Hinv.
  apply check_returns_inv in Hinv. destruct Hinv as (Hall & Hres & _).
  unfold main_block. rewrite (lift_bind _ _ _ _ _ Hrun). cbv beta.
  rewrite !lift_print_bind, !emit_emit.
  assert (Hloop : summary_loop host conclusions 0 results
                    (emit (summary_banner assumptions) wd1)
                  = (inr tt,
                     emit (summary_lines host 0 conclusions results)
                       (emit (summary_banner assumptions) wd1))).
  { apply (summary_loop_spec results [] conclusions).
    - rewrite Hres, length_map. lia.
    - eapply Forall_impl; [| exact Hall]. apply Recoverable_Summarizable. }
  unfold summary_banner in Hloop |- *. cbn [app] in Hloop |- *.
  rewrite (main_bind_returns _ _ _ _ _ Hloop). cbv beta.
  unfold lift, print. rewrite !emit_emit. unfold emit.
  cbn [stdout solvers_created solver_queries clock_reads].
  rewrite <- !app_assoc. reflexivity.
Qed.

Lemma main_block_propagates assumptions conclusions wd ex wd' :
  call_check host assumptions conclusions None wd = (inl ex, wd') ->
  main_block host assumptions conclusions wd = (inl (Propagated ex), wd').
Proof.
  intros Hrun. unfold main_block, main_bind at 1, lift at 1.
  now rewrite Hrun.
Qed.

Lemma summary_lines_length :
  forall conclusions results idx,
    length results = length conclusions ->
    length (summary_lines host idx conclusions results)
    = 2 * length conclusions.
Proof.
  induction conclusions as [| c cs IH]; intros [| res rs] idx Hlen;
    try discriminate; [reflexivity |].
  simpl. rewrite IH; [lia | simpl in Hlen; lia].
Qed.

Lemma summary_lines_nth :
  forall conclusions results idx i concl status,
    nth_error conclusions i = Some concl ->
    nth_error results i = Some status ->
    nth_error (summary_lines host idx conclusions results) (2 * i)
    = Some (summary_shown host (idx + i + 1) concl)
    /\ nth_error (summary_lines host idx conclusions results) (2 * i + 1)
       = Some ("  Result: " ++ status).
Proof.
  induction conclusions as [| c cs IH]; intros [| res rs] idx i concl status
    Hc Hs; try (destruct i; discriminate).
  destruct i as [| i].
  - injection Hc as ->. injection Hs as ->. simpl.
    now rewrite Nat.add_0_r.
  - simpl in Hc, Hs.
    destruct (IH rs (S idx) i concl status Hc Hs) as [H1 H2].
    replace (2 * S i) with (S (S (2 * i))) by lia.
    replace (S (S (2 * i)) + 1) with (S (S (2 * i + 1))) by lia.
    simpl summary_lines. simpl nth_error.
    split; [| exact H2].
    now replace (idx + S i + 1) with (S idx + i + 1) by lia.
Qed.

End MainFacts.

(** X9. The main block ends as [check] does.  An exception that leaves
    [check] leaves the main block unchanged, with nothing more printed.
    When [check] returns, the summary always completes: [conclusions[idx]]
    is never out of range and a display that fails is replaced by the
    placeholder.  The summary is the four banner lines, two lines per
    conclusion (the conclusion, then "  Result: " and the status returned
    for it) and a closing rule. *)
Theorem main_block_summary {float} (host : Host float)
    (assumptions conclusions : list BoolRef) (wd : World) :
  (forall ex wd',
     call_check host assumptions conclusions None wd = (inl ex, wd') ->
     main_block host assumptions conclusions wd = (inl (Propagated ex), wd'))
  /\ (forall results wd1,
        call_check host assumptions conclusions None wd = (inr results, wd1) ->
        exists summary wd',
          main_block host assumptions conclusions wd = (inr tt, wd')
          /\ stdout wd'
             = (stdout wd1
                  ++ [ (Py.newline ++ Py.repeat_char "=" 70)%string;
                       "SUMMARY OF CHECKS:";
                       Py.repeat_char "=" 70;
                       ("Assumptions Used: "
                          ++ Py.str_nat (length assumptions)
                          ++ " axioms")%string ]
                  ++ summary
                  ++ [Py.repeat_char "=" 70])%list
          /\ solver_queries wd' = solver_queries wd1
          /\ length summary = 2 * length conclusions
          /\ (forall i concl,
                nth_error conclusions i = Some concl ->
                (forall text,
                   expr_str host concl = inr text ->
                   nth_error summary (2 * i)
                   = Some ("Conclusion " ++ Py.str_nat (i + 1) ++ ": ["
                             ++ text ++ "]"))
                /\ (forall ex,
                      expr_str host concl = inl ex ->
                      nth_error summary (2 * i)
                      = Some ("Conclusion " ++ Py.str_nat (i + 1)
                                ++ ": [Could not format conclusion]"))
                /\ exists status,
                     nth_error results i = Some status
                     /\ nth_error summary (2 * i + 1)
                        = Some ("  Result: " ++ status)))
  /\ (forall msg wd',
        main_block host assumptions conclusions wd
        <> (inl (IndexError msg), wd')).
Proof.
  split; [apply main_block_propagates |]. split.
  - intros results wd1 Hrun.
    pose proof Hrun as Hinv. unfold call_check in Hinv.
    apply check_returns_inv in Hinv. destruct Hinv as (_ & Hres & _).
    assert (Hlen : length results = length conclusions)
      by (rewrite Hres; apply length_map).
    exists (summary_lines host 0 conclusions results). eexists.
    split; [apply (main_block_spec host); exact Hrun |].
    split; [reflexivity |]. split; [reflexivity |].
    split; [now apply summary_lines_length |].
    intros i concl Hi.
    assert (Hs : exists status, nth_error results i = Some status).
    { destruct (nth_error results i) as [s |] eqn:E; [now exists s |].
      apply nth_error_None in E.
      assert (i < length conclusions) by (apply nth_error_Some; congruence).
      lia. }
    destruct Hs as [status Hs].
    destruct (summary_lines_nth host conclusions results 0 i concl status
                Hi Hs) as [H1 H2].
    unfold summary_shown in H1. cbn [Nat.add] in H1.
    split; [| split].
    + intros text Ht. now rewrite Ht in H1.
    + intros ex He. now rewrite He in H1.
    + now exists status.
  - intros msg wd' Hmain.
    destruct (call_check host assumptions conclusions None wd)
      as [[ex | results] wd1] eqn:Hrun.
    + rewrite (main_block_propagates host _ _ _ _ _ Hrun) in Hmain.
      discriminate.
    + rewrite (main_block_spec host _ _ _ _ _ Hrun) in Hmain.
      discriminate.
Qed.

Lemma main_block_summary_witness :
  exists wd1 wd',
    call_check sexpr_only_host [] [refl_conclusion; collapse_conclusion]
      None World_init
    = (inr ["holds"; "doesn't hold"], wd1)
    /\ main_block sexpr_only_host [] [refl_conclusion; collapse_conclusion]
         World_init = (inr tt, wd')
    /\ length (stdout wd') = length (stdout wd1) + 9.
Proof.
  assert (R : exists wd1,
             call_check sexpr_only_host []
               [refl_conclusion; collapse_conclusion] None World_init
             = (inr ["holds"; "doesn't hold"], wd1))
    by (eexists; vm_compute; reflexivity).
  destruct R as [wd1 R].
  destruct (main_block_summary sexpr_only_host []
              [refl_conclusion; collapse_conclusion] World_init)
    as (_ & Hret & _).
  destruct (Hret _ _ R) as (summary & wd' & Hmain & Hout & _ & Hlen & _).
  exists wd1, wd'. split; [exact R |]. split; [exact Hmain |].
  rewrite Hout, !length_app, Hlen.
  change (length [refl_conclusion; collapse_conclusion]) with 2.
  change (length [Py.repeat_char "=" 70]) with 1.
  match goal with
  | |- context [length (?a :: ?b :: ?c :: [?d])] =>
      change (length (a :: b :: c :: [d])) with 4
  end.
  lia.
Defined.

(** X10. The summary does not fall back to the S-expression.  For a
    conclusion whose pretty-printer raises an [Exception] while its
    S-expression dump answers, the per-check trace shows the S-expression
    on the line after the heading, and the summary shows the placeholder
    "[Could not format conclusion]" on the conclusion's summary line. *)
Theorem summary_does_not_fall_back {float} (host : Host float)
    (assumptions conclusions : list BoolRef) (wd : World)
    (results : list string) (wd1 : World)
    (i : nat) (concl : BoolRef) (ex : Py.Exn) (text : string)
    (Hrun : call_check host assumptions conclusions None wd
            = (inr results, wd1))
    (Hi : nth_error conclusions i = Some concl)
    (Hstr : expr_str host concl = inl ex)
    (Hsexpr : expr_sexpr host concl = inr text) :
  exists wd',
    main_block host assumptions conclusions wd = (inr tt, wd')
    /\ nth_error (stdout wd') (length (stdout wd) + 5 + 4 * i + 1)
       = Some ("  " ++ text)
    /\ nth_error (stdout wd')
         (length (stdout wd) + 8 + 4 * length conclusions + 4 + 2 * i)
       = Some ("Conclusion " ++ Py.str_nat (i + 1)
                 ++ ": [Could not format conclusion]").
Proof.
  pose proof Hrun as Hcheck. unfold call_check in Hcheck.
  pose proof (check_stdout_length host _ _ _ _ _ _ Hcheck) as Hlen1.
  pose proof (check_stdout_nth host _ _ _ _ _ _ i concl 1 Hcheck Hi
                ltac:(lia)) as Hshown.
  destruct (check_returns_inv host _ _ _ _ _ _ Hcheck) as (_ & Hres & _).
  assert (Hs : exists status, nth_error results i = Some status).
  { exists (classification host assumptions timeout_ms_default concl).
    rewrite Hres. now apply map_nth_error. }
  destruct Hs as [status Hs].
  destruct (summary_lines_nth host conclusions results 0 i concl status Hi Hs)
    as [Hsum _].
  assert (Hi' : i < length conclusions)
    by (apply nth_error_Some; congruence).
  assert (Hlen2 : length (summary_lines host 0 conclusions results)
                  = 2 * length conclusions).
  { apply summary_lines_length. rewrite Hres. apply length_map. }
  eexists. split; [apply (main_block_spec host); exact Hrun |].
  unfold emit. cbn [stdout]. split.
  - rewrite nth_error_app1 by lia.
    rewrite Hshown. cbn [trace_of nth_error]. unfold shown.
    now rewrite Hstr, Hsexpr.
  - rewrite nth_error_app2 by lia.
    replace (length (stdout wd) + 8 + 4 * length conclusions + 4 + 2 * i
             - length (stdout wd1)) with (4 + 2 * i) by lia.
    rewrite nth_error_app2 by (simpl; lia).
    replace (4 + 2 * i - length (summary_banner assumptions))
      with (2 * i) by (simpl; lia).
    rewrite nth_error_app1 by lia.
    rewrite Hsum. unfold summary_shown. now rewrite Hstr.
Qed.

Lemma summary_does_not_fall_back_witness :
  exists wd1 wd',
    call_check sexpr_only_host [] [refl_conclusion; collapse_conclusion]
      None World_init
    = (inr ["holds"; "doesn't hold"], wd1)
    /\ main_block sexpr_only_host [] [refl_conclusion; collapse_conclusion]
         World_init = (inr tt, wd')
    /\ nth_error (stdout wd') 10 = Some "  ForAll([x, y], x == y)"
    /\ nth_error (stdout wd') 22
       = Some "Conclusion 2: [Could not format conclusion]".
Proof.
  assert (R : exists wd1,
             call_check sexpr_only_host []
               [refl_conclusion; collapse_conclusion] None World_init
             = (inr ["holds"; "doesn't hold"], wd1))
    by (eexists; vm_compute; reflexivity).
  destruct R as [wd1 R].
  destruct (summary_does_not_fall_back sexpr_only_host []
              [refl_conclusion; collapse_conclusion] World_init _ wd1 1
              collapse_conclusion (Py.Z3Exception "invalid argument")
              "ForAll([x, y], x == y)" R eq_refl eq_refl eq_refl)
    as (wd' & Hmain & H1 & H2).
  exists wd1, wd'. split; [exact R |]. split; [exact Hmain |].
  split; [exact H1 | exact H2].
Defined.

Lemma module_load_ok :
  exists loaded, Theories.module_load = inr loaded.
Proof. eexists. vm_compute. reflexivity. Qed.

(** X11. Run as a script, the file loads its catalog without an
    exception and asks Z3 one question: whether the three weak
    relative-closure axioms (5), (7), (9) and the antisymmetry
    quasi-identity for [p] entail the equational t-antisymmetry axiom (3),
    within 1000 milliseconds.  When the display of that conclusion is
    recoverable the script ends normally, having created one solver and
    printed 19 lines, among them "Number of Assumptions: 4" and
    "Assumptions Used: 4 axioms". *)
Theorem script_asks_one_question {float} (host : Host float) (wd : World)
    (Hdisplay :
       Recoverable host
         (ForAll [x; y] (Eq (p (p x y) x) (p (p (p x y) x) y)))) :
  exists wd',
    script host wd = (inr tt, wd')
    /\ solvers_created wd' = solvers_created wd + 1
    /\ solver_queries wd'
       = (solver_queries wd
            ++ [ {| timeout := Some 1000%Z;
                    assertions :=
                      [ ForAll [x; y]
                          (Eq (p (p (p x y) y) (p x y)) (p x y));
                        ForAll [x; y; z]
                          (Eq (p (p x y) (p x z)) (p (p x y) z));
                        ForAll [x; y]
                          (Eq (p (p (p (p (p x y) x) (p x y)) x)
                                 (p (p (p x y) x) x))
                              (p (p (p x y) x) x));
                        ForAll [x; y]
                          (Implies (And (Eq (p x y) y) (Eq (p y x) x))
                             (Eq x y));
                        Not (ForAll [x; y]
                               (Eq (p (p x y) x) (p (p (p x y) x) y))) ]
                 |} ])%list
    /\ length (stdout wd') = length (stdout wd) + 19
    /\ nth_error (stdout wd') (length (stdout wd) + 2)
       = Some "Number of Assumptions: 4"
    /\ nth_error (stdout wd') (length (stdout wd) + 15)
       = Some "Assumptions Used: 4 axioms".
Proof.
  destruct module_load_ok as [loaded Hload].
  set (concl := ForAll [x; y] (Eq (p (p x y) x) (p (p (p x y) x) y))) in *.
  assert (Hall : Forall (Recoverable host) [concl])
    by (constructor; [exact Hdisplay | constructor]).
  pose proof (check_spec host (value_or [] Catalog.main_assumptions) [concl]
                1000 wd Hall) as Hcheck.
  pose proof (main_block_spec host (value_or [] Catalog.main_assumptions)
                [concl] wd _ _ Hcheck) as Hmain.
  eexists. split.
  - unfold script.
    rewrite (lift_bind (eval Theories.module_load) _ wd loaded wd)
      by (unfold eval; now rewrite Hload).
    cbv beta.
    rewrite (lift_bind (eval Catalog.main_assumptions) _ wd
               (value_or [] Catalog.main_assumptions) wd) by reflexivity.
    cbv beta.
    rewrite (lift_bind (eval Catalog.main_conclusions) _ wd [concl] wd)
      by reflexivity.
    cbv beta. exact Hmain.
  - unfold emit, after_checks.
    cbn [stdout solvers_created solver_queries clock_reads].
    split; [reflexivity |]. split; [reflexivity |]. split.
    + rewrite !length_app.
      change (length (banner_start (value_or [] Catalog.main_assumptions)
                        1000)) with 5.
      change (length banner_end) with 3.
      change (length (summary_banner (value_or [] Catalog.main_assumptions)))
        with 4.
      rewrite trace_lines_length.
      rewrite (summary_lines_length host [concl]) by reflexivity.
      simpl. lia.
    + split.
      * rewrite <- app_assoc, nth_error_app2 by lia.
        replace (length (stdout wd) + 2 - length (stdout wd)) with 2 by lia.
        reflexivity.
      * rewrite <- app_assoc, nth_error_app2 by lia.
        replace (length (stdout wd) + 15 - length (stdout wd)) with 15
          by lia.
        reflexivity.
Qed.

Lemma script_asks_one_question_witness :
  Recoverable (toy_host 7)
    (ForAll [x; y] (Eq (p (p x y) x) (p (p (p x y) x) y)))
  /\ exists wd',
       script (toy_host 7) World_init = (inr tt, wd')
       /\ length (solver_queries wd') = 1
       /\ length (stdout wd') = 19
       /\ nth_error (stdout wd') 15 = Some "Assumptions Used: 4 axioms".
Proof.
  assert (H : Recoverable (toy_host 7)
                (ForAll [x; y] (Eq (p (p x y) x) (p (p (p x y) x) y))))
    by (left; eexists; reflexivity).
  split; [exact H |].
  destruct (script_asks_one_question (toy_host 7) World_init H)
    as (wd' & Hrun & _ & Hq & Hlen & _ & Hsum).
  exists wd'. split; [exact Hrun |].
  split; [now rewrite Hq |]. split; [exact Hlen | exact Hsum].
Defined.
